(** * kishash: a key embedded at fixed offsets of a hexadecimal document

    A shallow embedding of [kishash.py] and the verification of its
    specification.

    Conventions of the model.
    - A Python [str] is a list of Unicode code points ([N]); [len] is the
      length of the list, indexing is list lookup, slicing is [take]/[drop].
    - Side effects (the file system, the secure random source, standard
      output) live in a [World] that every operation threads explicitly;
      exceptions are a result constructor, and the world reached when an
      exception is raised is kept (effects before the raise persist).
    - The file system maps a path to the text of a regular file; a path
      string is the identity of the file (two spellings of one path are not
      related). [Path.write_text] fails as the library does: with the
      [OSError] of the environment when the path cannot be opened for
      writing, and with [UnicodeEncodeError], after the file was truncated,
      when the text holds a lone surrogate (UTF-8 cannot encode it). A
      read returns the stored text after universal newline translation, and
      the platform line separator is a line feed (POSIX).
    - [secrets.token_bytes] reads the next bytes of an arbitrary, universally
      quantified entropy stream. *)

From Stdlib Require Import Init.Byte.
From stdpp Require Import gmap list strings.

Local Open Scope N_scope.

(** ** Python strings as lists of code points *)

Abbreviation char := N (only parsing).
Abbreviation str := (list N) (only parsing).

(** A string literal of the source (all of them but one are ASCII). *)
Definition pystr (s : string) : str :=
  (fun a => Ascii.N_of_ascii a) <$> String.list_ascii_of_string s.

Definition LF : char := 10.
Definition CR : char := 13.

(** The line boundaries of [str.splitlines]: \n, \v, \f, \r, \x1c, \x1d,
    \x1e, \x85, U+2028 and U+2029 (and the pair \r\n, handled by
    [splitlines_from]). *)
Definition is_linebreak (c : char) : bool :=
  (10 <=? c) && (c <=? 13) || (28 <=? c) && (c <=? 30)
  || (c =? 133) || (c =? 8232) || (c =? 8233).

(** [str.splitlines()], keepends false.  [cur] is the line being read; a line
    is emitted at each boundary, and at the end of the text when it is not
    empty (so a final boundary does not open an empty last line). *)
Fixpoint splitlines_from (cur : str) (s : str) : list str :=
  match s with
  | [] => match cur with [] => [] | _ => [cur] end
  | c :: rest =>
      if is_linebreak c then
        cur :: match rest with
               | c' :: rest' =>
                   if (c =? CR) && (c' =? LF) then splitlines_from [] rest'
                   else splitlines_from [] rest
               | [] => splitlines_from [] rest
               end
      else splitlines_from (cur ++ [c]) rest
  end.

Definition splitlines (s : str) : list str := splitlines_from [] s.

(** Universal newlines on reading in text mode: \r\n and \r become \n. *)
Fixpoint universal_newlines (s : str) : str :=
  match s with
  | [] => []
  | c :: rest =>
      if c =? CR then
        LF :: match rest with
              | c' :: rest' =>
                  if c' =? LF then universal_newlines rest'
                  else universal_newlines rest
              | [] => []
              end
      else c :: universal_newlines rest
  end.

(** [sep.join(parts)]. *)
Fixpoint str_join (sep : str) (parts : list str) : str :=
  match parts with
  | [] => []
  | [p] => p
  | p :: rest => p ++ sep ++ str_join sep rest
  end.

(** [str(n)] for a non-negative integer, as an f-string renders it. *)
Fixpoint digits_of_uint (d : Decimal.uint) : str :=
  match d with
  | Decimal.Nil => []
  | Decimal.D0 d' => 48 :: digits_of_uint d'
  | Decimal.D1 d' => 49 :: digits_of_uint d'
  | Decimal.D2 d' => 50 :: digits_of_uint d'
  | Decimal.D3 d' => 51 :: digits_of_uint d'
  | Decimal.D4 d' => 52 :: digits_of_uint d'
  | Decimal.D5 d' => 53 :: digits_of_uint d'
  | Decimal.D6 d' => 54 :: digits_of_uint d'
  | Decimal.D7 d' => 55 :: digits_of_uint d'
  | Decimal.D8 d' => 56 :: digits_of_uint d'
  | Decimal.D9 d' => 57 :: digits_of_uint d'
  end.

Definition str_of_nat (n : nat) : str := digits_of_uint (Nat.to_uint n).

(** The lowercase hexadecimal alphabet 0-9a-f. *)
Definition is_lower_hex (c : char) : bool :=
  (48 <=? c) && (c <=? 57) || (97 <=? c) && (c <=? 102).

(** [string.hexdigits]: 0-9a-fA-F. *)
Definition is_hexdigit (c : char) : bool :=
  is_lower_hex c || (65 <=? c) && (c <=? 70).

(** One hexadecimal digit of [bytes.hex()]. *)
Definition hex_digit (d : N) : char :=
  if d <? 10 then 48 + d else 87 + d.

(** [bytes.hex()]: two lowercase digits per byte, high nibble first. *)
Definition hexlify (bs : list byte) : str :=
  bs ≫= (fun b => [hex_digit (Byte.to_N b / 16); hex_digit (Byte.to_N b mod 16)]).

(** ** The world, exceptions and the effect monad *)

Record World := mkWorld {
  fs : gmap (list N) (list N);   (* path -> text of the file *)
  write_error : list N -> option (list N);
                                 (* path -> message of the [OSError] raised
                                    on opening it for writing, if any *)
  entropy : nat -> byte;         (* the secure random source *)
  consumed : nat;                (* bytes of [entropy] already drawn *)
  stdout : list (list N)         (* the texts given to [print], in order *)
}.

Definition set_fs (f : gmap (list N) (list N)) (w : World) : World :=
  mkWorld f (write_error w) (entropy w) (consumed w) (stdout w).
Definition set_consumed (n : nat) (w : World) : World :=
  mkWorld (fs w) (write_error w) (entropy w) n (stdout w).
Definition set_stdout (o : list (list N)) (w : World) : World :=
  mkWorld (fs w) (write_error w) (entropy w) (consumed w) o.

(** The exceptions of the program and of the library calls it makes; every
    one is a subclass of [Exception]. [UnicodeEncodeError] is the one of the
    UTF-8 codec, with the text being encoded and the range [start, stop) of
    the lone surrogates it met; [OSError] stands for the error of the
    operating system on opening a file, with its rendering. *)
Inductive exn :=
| FileNotFoundError (msg : str)
| ValueError (msg : str)
| IndexError (msg : str)
| UnicodeEncodeError (object : str) (start stop : nat)
| OSError (msg : str).

(** [c] in hexadecimal, on [width] digits. *)
Fixpoint hex_fixed (width : nat) (c : N) : str :=
  match width with
  | O => []
  | S width' => hex_fixed width' (c / 16) ++ [hex_digit (c mod 16)]
  end.

(** The escape of a character in the message of a [UnicodeEncodeError]. *)
Definition char_escape (c : char) : str :=
  if c <=? 255 then pystr "\x" ++ hex_fixed 2 c
  else if c <=? 65535 then pystr "\u" ++ hex_fixed 4 c
  else pystr "\U" ++ hex_fixed 8 c.

(** [str(e)]: the message argument, or the rendering of the codec error. *)
Definition exn_str (e : exn) : str :=
  match e with
  | FileNotFoundError msg | ValueError msg | IndexError msg | OSError msg => msg
  | UnicodeEncodeError object start stop =>
      match object !! start with
      | Some c =>
          if (stop =? start + 1)%nat then
            pystr "'utf-8' codec can't encode character '" ++ char_escape c
              ++ pystr "' in position " ++ str_of_nat start
              ++ pystr ": surrogates not allowed"
          else
            pystr "'utf-8' codec can't encode characters in position "
              ++ str_of_nat start ++ pystr "-" ++ str_of_nat (stop - 1)
              ++ pystr ": surrogates not allowed"
      | None =>
          pystr "'utf-8' codec can't encode characters in position "
            ++ str_of_nat start ++ pystr "-" ++ str_of_nat (stop - 1)
            ++ pystr ": surrogates not allowed"
      end
  end.

Inductive result (A : Type) :=
| Ok (a : A)
| Raise (e : exn).
Arguments Ok {A} a.
Arguments Raise {A} e.

Definition M (A : Type) : Type := World -> result A * World.

Definition ret {A} (a : A) : M A := fun w => (Ok a, w).
Definition raise {A} (e : exn) : M A := fun w => (Raise e, w).
Definition bind {A B} (m : M A) (k : A -> M B) : M B :=
  fun w => match m w with
           | (Ok a, w') => k a w'
           | (Raise e, w') => (Raise e, w')
           end.

(** [try: x = m / except Exception as e: handler(e); return / k(x)]. *)
Definition try_except {A B} (m : M A) (handler : exn -> M B) (k : A -> M B) : M B :=
  fun w => match m w with
           | (Ok a, w') => k a w'
           | (Raise e, w') => handler e w'
           end.

Declare Scope py_scope.
Delimit Scope py_scope with py.
Notation "x <- m ;; k" := (bind m (fun x => k))
  (at level 100, m at next level, right associativity) : py_scope.
Notation "m ;; k" := (bind m (fun _ => k))
  (at level 100, right associativity) : py_scope.
Local Open Scope py_scope.

(** A [for] loop over [xs] that updates the loop-carried value [s]. *)
Fixpoint for_each {A S} (xs : list A) (body : S -> A -> M S) (s : S) : M S :=
  match xs with
  | [] => ret s
  | x :: rest => s' <- body s x ;; for_each rest body s'
  end.

(** ** Library primitives *)

(** [l[i]] on a list, for an index that is not negative. *)
Definition list_getitem {A} (l : list A) (i : nat) : M A :=
  match l !! i with
  | Some x => ret x
  | None => raise (IndexError (pystr "list index out of range"))
  end.

(** [s[i]] on a string: the one-character string at [i]. *)
Definition str_getitem (s : str) (i : nat) : M str :=
  match s !! i with
  | Some c => ret [c]
  | None => raise (IndexError (pystr "string index out of range"))
  end.

(** [secrets.token_bytes(n)]. *)
Definition token_bytes (n : nat) : M (list byte) :=
  fun w => (Ok (entropy w <$> seq (consumed w) n),
            set_consumed (consumed w + n)%nat w).

(** [secrets.token_hex(n)] is [token_bytes(n).hex()]. *)
Definition token_hex (n : nat) : M str :=
  bs <- token_bytes n ;; ret (hexlify bs).

(** [Path(filename).exists()]. *)
Definition path_exists (filename : str) : M bool :=
  fun w => (Ok (bool_decide (is_Some (fs w !! filename))), w).

(** [Path(filename).read_text(encoding="utf-8")]. *)
Definition read_text (filename : str) : M str :=
  fun w => match fs w !! filename with
           | Some text => (Ok (universal_newlines text), w)
           | None =>
               (Raise (FileNotFoundError
                  (pystr "[Errno 2] No such file or directory: '" ++ filename ++ pystr "'")), w)
           end.

(** A lone surrogate, U+D800..U+DFFF: a code point that a [str] can hold
    and that UTF-8 cannot encode. *)
Definition is_surrogate (c : char) : bool := (55296 <=? c) && (c <=? 57343).

(** The index of the first surrogate of a text. *)
Fixpoint first_surrogate (s : str) : option nat :=
  match s with
  | [] => None
  | c :: rest => if is_surrogate c then Some 0%nat else S <$> first_surrogate rest
  end.

(** The number of surrogates a text starts with. *)
Fixpoint surrogate_prefix (s : str) : nat :=
  match s with
  | c :: rest => if is_surrogate c then S (surrogate_prefix rest) else 0
  | [] => 0
  end.

(** [Path(filename).write_text(data, encoding="utf-8")]: opens the file for
    writing, which creates or truncates it, then encodes and writes [data]. *)
Definition write_text (filename : str) (data : str) : M unit :=
  fun w =>
    match write_error w filename with
    | Some msg => (Raise (OSError msg), w)
    | None =>
        match first_surrogate data with
        | Some start =>
            (Raise (UnicodeEncodeError data start
                      (start + surrogate_prefix (drop start data))),
             set_fs (<[filename := []]> (fs w)) w)
        | None => (Ok tt, set_fs (<[filename := data]> (fs w)) w)
        end
    end.

(** [print(s)]. *)
Definition print (s : str) : M unit :=
  fun w => (Ok tt, set_stdout (stdout w ++ [s]) w).

(** [enumerate(l, start)] and [enumerate(l)]. *)
Fixpoint enumerate_from {A} (start : nat) (l : list A) : list (nat * A) :=
  match l with
  | [] => []
  | x :: rest => (start, x) :: enumerate_from (S start) rest
  end.

Definition enumerate {A} (l : list A) : list (nat * A) := enumerate_from 0 l.

(** ** kishash.py *)

Definition POSITIONS : list nat := [0; 4; 8; 16; 32; 64; 96; 112; 120; 127]%nat.
Definition LINE_LENGTH : nat := 128.
Definition NUM_LINES : nat := 10.
Definition DEFAULT_FILENAME : str := pystr "hash.hex".

Definition generate_secret_key : M str := token_hex 5.

Definition random_hex_line : M str := token_hex (LINE_LENGTH / 2).

Definition msg_key_length : str :=
  pystr "secret_key must be exactly " ++ str_of_nat NUM_LINES ++ pystr " hex characters".

Definition msg_written (filename : str) : str :=
  LF :: pystr "[OK] File '" ++ filename ++ pystr "' written successfully.".

Definition msg_generated (secret_key : str) : str :=
  pystr "[OK] Generated secret key: " ++ secret_key ++ [LF].

(** The body of the loop of [write_file_with_key]. *)
Definition embed_step (secret_key : str) (lines : list str) (i : nat) : M (list str) :=
  line <- random_hex_line ;;
  pos <- list_getitem POSITIONS i ;;
  ch <- str_getitem secret_key i ;;
  ret (lines ++ [take pos line ++ ch ++ drop (pos + 1) line]).

Definition write_file_with_key (secret_key : str) (filename : str) : M unit :=
  if negb (length secret_key =? NUM_LINES)%nat then
    raise (ValueError msg_key_length)
  else
    lines <- for_each (seq 0 NUM_LINES) (embed_step secret_key) [] ;;
    write_text filename (str_join [LF] lines ++ [LF]) ;;
    print (msg_written filename) ;;
    print (msg_generated secret_key).

Definition msg_not_found (filename : str) : str :=
  pystr "File '" ++ filename ++ pystr "' not found.".

Definition msg_line_count (n : nat) : str :=
  pystr "File must contain " ++ str_of_nat NUM_LINES
    ++ pystr " lines but contains " ++ str_of_nat n.

Definition msg_line_length (i : nat) (n : nat) : str :=
  pystr "Line " ++ str_of_nat (i + 1) ++ pystr " has " ++ str_of_nat n
    ++ pystr " characters; expected " ++ str_of_nat LINE_LENGTH ++ pystr ".".

(** The body of the loop of [extract_key_from_file]. *)
Definition extract_step (extracted_chars : list str) (item : nat * str) : M (list str) :=
  let '(i, line) := item in
  if negb (length line =? LINE_LENGTH)%nat then
    raise (ValueError (msg_line_length i (length line)))
  else
    pos <- list_getitem POSITIONS i ;;
    ch <- str_getitem line pos ;;
    ret (extracted_chars ++ [ch]).

Definition extract_key_from_file (filename : str) : M str :=
  present <- path_exists filename ;;
  if negb present then
    raise (FileNotFoundError (msg_not_found filename))
  else
    text <- read_text filename ;;
    let content := splitlines text in
    if negb (length content =? NUM_LINES)%nat then
      raise (ValueError (msg_line_count (length content)))
    else
      extracted_chars <- for_each (enumerate content) extract_step [] ;;
      ret (str_join [] extracted_chars).

(** [argparse.Namespace] of the two sub-commands: [--file] always has a value
    (its default is [DEFAULT_FILENAME]); [--key] is [None] when not given. *)
Record Namespace := mkArgs {
  args_file : str;
  args_key : option str
}.

Definition cmd_generate (args : Namespace) : M unit :=
  key <- generate_secret_key ;;
  write_file_with_key key (args_file args).

Definition msg_error (e : exn) : str := pystr "[X] Error: " ++ exn_str e.
(** The message starts with the magnifying glass U+1F50D. *)
Definition msg_extracted (extracted : str) : str :=
  128269 :: pystr " Extracted key: " ++ extracted.
Definition msg_match : str := pystr "[OK] The provided key MATCHES the file." ++ [LF].
Definition msg_mismatch : str :=
  pystr "[X] The provided key DOES NOT MATCH the file." ++ [LF].
Definition msg_no_key : str :=
  pystr "[!] No key provided for comparison. Extraction finished." ++ [LF].

(** Truth value of [args.key]: [None] and the empty string are false. *)
Definition truthy (k : option str) : bool :=
  match k with
  | Some (_ :: _) => true
  | _ => false
  end.

Definition cmd_validate (args : Namespace) : M unit :=
  try_except (extract_key_from_file (args_file args))
    (fun e => print (msg_error e))
    (fun extracted =>
       print (msg_extracted extracted) ;;
       if truthy (args_key args) then
         if bool_decide (args_key args = Some extracted) then print msg_match
         else print msg_mismatch
       else print msg_no_key).

(** * Verification *)

(** ** Hexadecimal text *)

Lemma hex_digit_lower (d : N) : d < 16 -> is_lower_hex (hex_digit d) = true.
Proof.
  intros Hd. unfold hex_digit, is_lower_hex.
  destruct (N.ltb_spec d 10).
  - replace (48 <=? 48 + d) with true by (symmetry; apply N.leb_le; lia).
    replace (48 + d <=? 57) with true by (symmetry; apply N.leb_le; lia).
    reflexivity.
  - replace (97 <=? 87 + d) with true by (symmetry; apply N.leb_le; lia).
    replace (87 + d <=? 102) with true by (symmetry; apply N.leb_le; lia).
    apply orb_true_r.
Qed.

Lemma byte_nibbles (b : byte) : Byte.to_N b / 16 < 16 /\ Byte.to_N b mod 16 < 16.
Proof.
  pose proof (Byte.to_N_bounded b) as Hb. split.
  - apply N.Div0.div_lt_upper_bound. lia.
  - apply N.mod_lt. lia.
Qed.

Lemma hexlify_length (bs : list byte) : length (hexlify bs) = (2 * length bs)%nat.
Proof.
  unfold hexlify. induction bs as [|b bs IH]; [reflexivity|].
  rewrite bind_cons, length_app, IH. simpl. lia.
Qed.

Lemma hexlify_lower (bs : list byte) : forallb is_lower_hex (hexlify bs) = true.
Proof.
  unfold hexlify. induction bs as [|b bs IH]; [reflexivity|].
  rewrite bind_cons, forallb_app, IH.
  destruct (byte_nibbles b) as [Hhi Hlo]. simpl.
  rewrite !hex_digit_lower by assumption. reflexivity.
Qed.

Lemma lower_hex_hexdigit (c : N) : is_lower_hex c = true -> is_hexdigit c = true.
Proof. intros H. unfold is_hexdigit. rewrite H. reflexivity. Qed.

Lemma hexdigit_not_linebreak (c : N) : is_hexdigit c = true -> is_linebreak c = false.
Proof.
  unfold is_hexdigit, is_lower_hex, is_linebreak. intros H.
  repeat (apply orb_true_iff in H as [H|H]); apply andb_true_iff in H as [H1 H2];
    apply N.leb_le in H1; apply N.leb_le in H2;
    repeat (apply orb_false_iff; split);
    try (apply andb_false_iff; (left + right); apply N.leb_gt; lia);
    apply N.eqb_neq; lia.
Qed.

Lemma hexdigit_not_surrogate (c : N) : is_hexdigit c = true -> is_surrogate c = false.
Proof.
  unfold is_hexdigit, is_lower_hex, is_surrogate. intros H.
  repeat (apply orb_true_iff in H as [H|H]); apply andb_true_iff in H as [H1 H2];
    apply N.leb_le in H1; apply N.leb_le in H2;
    apply andb_false_iff; left; apply N.leb_gt; lia.
Qed.

Lemma first_surrogate_None (s : list N) :
  first_surrogate s = None <-> forallb (fun c => negb (is_surrogate c)) s = true.
Proof.
  induction s as [|c s IH]; [split; reflexivity|].
  cbn [first_surrogate forallb]. destruct (is_surrogate c); cbn [negb andb].
  - split; discriminate.
  - rewrite <- IH. destruct (first_surrogate s); cbn; split; congruence.
Qed.

Lemma forallb_str_join (P : N -> bool) (sep final : list N) (parts : list (list N)) :
  forallb P sep = true -> forallb P final = true ->
  Forall (fun l => forallb P l = true) parts ->
  forallb P (str_join sep parts ++ final) = true.
Proof.
  intros Hsep Hfinal Hparts.
  induction Hparts as [|l parts Hl _ IH]; [exact Hfinal|].
  destruct parts as [|l' parts].
  - cbn [str_join]. rewrite forallb_app, Hl, Hfinal. reflexivity.
  - change (str_join sep (l :: l' :: parts)) with (l ++ sep ++ str_join sep (l' :: parts)).
    rewrite <- !app_assoc, forallb_app, Hl, forallb_app, Hsep, IH. reflexivity.
Qed.

Lemma elem_of_str_join (c : N) (l sep : list N) (parts : list (list N)) :
  l ∈ parts -> c ∈ l -> c ∈ str_join sep parts.
Proof.
  intros Hl Hc. induction parts as [|l' parts IH]; [inversion Hl|].
  destruct parts as [|l'' parts].
  - apply list_elem_of_singleton in Hl as ->. exact Hc.
  - change (str_join sep (l' :: l'' :: parts))
      with (l' ++ sep ++ str_join sep (l'' :: parts)).
    rewrite !elem_of_app. apply elem_of_cons in Hl as [->|Hl]; [left; exact Hc|].
    right. right. apply IH. exact Hl.
Qed.

(** ** Splitting a text into lines *)

(** The text left after the boundary [c]: a line feed that follows a carriage
    return belongs to the same boundary. *)
Definition skip_lf (c : N) (rest : list N) : list N :=
  match rest with
  | c' :: rest' => if (c =? CR) && (c' =? LF) then rest' else rest
  | [] => rest
  end.

Lemma splitlines_from_break (cur : list N) (c : N) (rest : list N) :
  is_linebreak c = true ->
  splitlines_from cur (c :: rest) = cur :: splitlines_from [] (skip_lf c rest).
Proof.
  intros Hc. cbn [splitlines_from]. rewrite Hc. unfold skip_lf.
  destruct rest as [|c' rest']; [reflexivity|].
  destruct ((c =? CR) && (c' =? LF)); reflexivity.
Qed.

Lemma splitlines_from_char (cur : list N) (c : N) (rest : list N) :
  is_linebreak c = false ->
  splitlines_from cur (c :: rest) = splitlines_from (cur ++ [c]) rest.
Proof. intros Hc. cbn [splitlines_from]. rewrite Hc. reflexivity. Qed.

(** Universal newline translation does not change the lines of a text. *)
Lemma splitlines_from_universal_newlines (s : list N) :
  forall cur, splitlines_from cur (universal_newlines s) = splitlines_from cur s.
Proof.
  induction s as [s IH] using (induction_ltof1 _ (@length N)). unfold ltof in IH.
  intros cur. destruct s as [|c rest]; [reflexivity|].
  cbn [universal_newlines]. destruct (N.eqb_spec c CR) as [->|Hc].
  - rewrite (splitlines_from_break cur CR) by reflexivity.
    rewrite (splitlines_from_break cur LF) by reflexivity.
    f_equal. destruct rest as [|c' rest']; [reflexivity|].
    cbn [skip_lf]. change (CR =? CR) with true. cbn [andb].
    destruct (N.eqb_spec c' LF) as [->|Hc'].
    + transitivity (splitlines_from [] (universal_newlines rest')).
      * destruct (universal_newlines rest'); reflexivity.
      * apply IH. simpl. lia.
    + transitivity (splitlines_from [] (universal_newlines (c' :: rest'))).
      * destruct (universal_newlines (c' :: rest')); reflexivity.
      * apply IH. simpl. lia.
  - destruct (is_linebreak c) eqn:Hb.
    + rewrite !splitlines_from_break by assumption. f_equal.
      assert (Hskip : forall r, skip_lf c r = r).
      { intros [|c' r']; [reflexivity|]. cbn [skip_lf].
        apply N.eqb_neq in Hc. rewrite Hc. reflexivity. }
      rewrite !Hskip. apply IH. simpl. lia.
    + rewrite !splitlines_from_char by assumption. apply IH. simpl. lia.
Qed.

Lemma splitlines_universal_newlines (s : list N) :
  splitlines (universal_newlines s) = splitlines s.
Proof. apply splitlines_from_universal_newlines. Qed.

(** A line without boundary characters, closed by a line feed, is read back
    as it is. *)
Lemma splitlines_from_line (l : list N) :
  forall cur rest,
    forallb (fun c => negb (is_linebreak c)) l = true ->
    splitlines_from cur (l ++ LF :: rest) = (cur ++ l) :: splitlines_from [] rest.
Proof.
  induction l as [|c l IH]; intros cur rest Hl.
  - rewrite app_nil_r. cbn [app].
    rewrite splitlines_from_break by reflexivity.
    destruct rest; reflexivity.
  - cbn [forallb] in Hl. apply andb_true_iff in Hl as [Hc Hl].
    apply negb_true_iff in Hc. cbn [app].
    rewrite splitlines_from_char by assumption.
    rewrite IH by assumption. rewrite <- app_assoc. reflexivity.
Qed.

Lemma splitlines_concat_lines (lines : list (list N)) :
  Forall (fun l => forallb (fun c => negb (is_linebreak c)) l = true) lines ->
  splitlines (concat ((fun l => l ++ [LF]) <$> lines)) = lines.
Proof.
  unfold splitlines. induction 1 as [|l lines Hl _ IH]; [reflexivity|].
  rewrite fmap_cons. cbn [concat]. rewrite <- app_assoc. cbn [app].
  rewrite splitlines_from_line by assumption. rewrite IH. reflexivity.
Qed.

Lemma str_join_lines (lines : list (list N)) :
  lines <> [] ->
  str_join [LF] lines ++ [LF] = concat ((fun l => l ++ [LF]) <$> lines).
Proof.
  induction lines as [|l lines IH]; [congruence|]. intros _.
  destruct lines as [|l' lines].
  - simpl. rewrite app_nil_r. reflexivity.
  - change (str_join [LF] (l :: l' :: lines)) with (l ++ [LF] ++ str_join [LF] (l' :: lines)).
    rewrite fmap_cons. cbn [concat]. rewrite <- IH by congruence.
    rewrite <- !app_assoc. reflexivity.
Qed.

Lemma str_join_empty (parts : list (list N)) : str_join [] parts = concat parts.
Proof.
  induction parts as [|p parts IH]; [reflexivity|].
  destruct parts as [|q parts].
  - simpl. rewrite app_nil_r. reflexivity.
  - change (str_join [] (p :: q :: parts)) with (p ++ [] ++ str_join [] (q :: parts)).
    rewrite IH. reflexivity.
Qed.

(** ** The embedder *)

Lemma token_hex_run (n : nat) (w : World) :
  token_hex n w
  = (Ok (hexlify (entropy w <$> seq (consumed w) n)), set_consumed (consumed w + n)%nat w).
Proof. reflexivity. Qed.

Lemma POSITIONS_lt (i pos : nat) : POSITIONS !! i = Some pos -> (pos < LINE_LENGTH)%nat.
Proof.
  intros H. assert (HF : Forall (fun p => (p < LINE_LENGTH)%nat) POSITIONS).
  { unfold POSITIONS, LINE_LENGTH. repeat constructor; lia. }
  exact (proj1 (Forall_lookup _ _) HF i pos H).
Qed.

(** Replacing one character by slicing, [line[:pos] + ch + line[pos + 1:]],
    is an update in place when [pos] is inside the line. *)
Lemma slice_replace (line : list N) (pos : nat) (c : N) :
  (pos < length line)%nat ->
  take pos line ++ [c] ++ drop (pos + 1) line = <[pos := c]> line.
Proof.
  intros Hpos. rewrite Nat.add_1_r. symmetry. apply insert_take_drop. exact Hpos.
Qed.

(** Line [i] of the document: a line of random lowercase hexadecimal digits
    whose character at [POSITIONS[i]] was replaced by [secret_key[i]]. *)
Definition embedded_line (secret_key : list N) (i : nat) (l : list N) : Prop :=
  exists line pos c,
    length line = LINE_LENGTH /\ forallb is_lower_hex line = true /\
    POSITIONS !! i = Some pos /\ secret_key !! i = Some c /\
    l = <[pos := c]> line.

Lemma embed_step_run (secret_key : list N) (lines : list (list N)) (i : nat) (w : World) :
  (i < length secret_key)%nat -> (i < length POSITIONS)%nat ->
  exists l, embedded_line secret_key i l /\
    embed_step secret_key lines i w
    = (Ok (lines ++ [l]), set_consumed (consumed w + LINE_LENGTH / 2)%nat w).
Proof.
  intros Hk Hp.
  destruct (lookup_lt_is_Some_2 _ _ Hk) as [c Hc].
  destruct (lookup_lt_is_Some_2 _ _ Hp) as [pos Hpos].
  set (line := hexlify (entropy w <$> seq (consumed w) (LINE_LENGTH / 2))).
  assert (Hlen : length line = LINE_LENGTH).
  { unfold line. rewrite hexlify_length, length_fmap, length_seq. reflexivity. }
  exists (<[pos := c]> line). split.
  - exists line, pos, c. split; [exact Hlen|]. split; [apply hexlify_lower|auto].
  - unfold embed_step, random_hex_line, bind. rewrite token_hex_run.
    unfold list_getitem, str_getitem. rewrite Hpos. unfold ret at 1.
    cbn [fs set_consumed]. rewrite Hc. unfold ret. fold line.
    rewrite slice_replace; [reflexivity|].
    rewrite Hlen. eapply POSITIONS_lt; eassumption.
Qed.

Lemma embed_loop_run (secret_key : list N) (n : nat) :
  forall start acc w,
    (start + n <= length secret_key)%nat -> (start + n <= length POSITIONS)%nat ->
    exists lines, Forall2 (embedded_line secret_key) (seq start n) lines /\
      for_each (seq start n) (embed_step secret_key) acc w
      = (Ok (acc ++ lines), set_consumed (consumed w + n * (LINE_LENGTH / 2))%nat w).
Proof.
  induction n as [|n IH]; intros start acc w Hk Hp.
  - exists []. split; [constructor|]. cbn [seq for_each]. unfold ret.
    rewrite app_nil_r. destruct w. unfold set_consumed. cbn. do 2 f_equal. lia.
  - destruct (embed_step_run secret_key acc start w) as (l & Hl & Hrun); [lia..|].
    destruct (IH (S start) (acc ++ [l])
                (set_consumed (consumed w + LINE_LENGTH / 2)%nat w)) as (lines & Hlines & Hloop);
      [lia..|].
    exists (l :: lines). split; [constructor; assumption|].
    cbn [seq for_each]. unfold bind at 1. rewrite Hrun, Hloop.
    rewrite <- app_assoc. unfold set_consumed. cbn. do 2 f_equal. lia.
Qed.

Section EmbeddedLine.
Context (secret_key : list N) (i : nat) (l : list N).
Hypothesis Hl : embedded_line secret_key i l.

Lemma embedded_line_length : length l = LINE_LENGTH.
Proof.
  destruct Hl as (line & pos & c & Hlen & _ & _ & _ & ->).
  rewrite length_insert. exact Hlen.
Qed.

Lemma embedded_line_key (pos : nat) :
  POSITIONS !! i = Some pos -> l !! pos = secret_key !! i.
Proof.
  destruct Hl as (line & pos' & c & Hlen & _ & Hpos & Hc & ->).
  intros Hpos'. assert (pos' = pos) as -> by congruence.
  apply POSITIONS_lt in Hpos. rewrite Hc.
  apply list_lookup_insert_eq. rewrite Hlen. exact Hpos.
Qed.

Lemma embedded_line_filler (pos j : nat) (c : N) :
  POSITIONS !! i = Some pos -> j <> pos -> l !! j = Some c ->
  is_lower_hex c = true.
Proof.
  destruct Hl as (line & pos' & c' & Hlen & Hhex & Hpos & Hc & ->).
  intros Hpos' Hj Hlook. assert (pos' = pos) as -> by congruence.
  rewrite list_lookup_insert_ne in Hlook by congruence.
  rewrite forallb_forall in Hhex. apply Hhex, list_elem_of_In.
  eapply list_elem_of_lookup_2; eassumption.
Qed.

Lemma embedded_line_no_surrogate :
  forallb (fun c => negb (is_surrogate c)) secret_key = true ->
  forallb (fun c => negb (is_surrogate c)) l = true.
Proof.
  destruct Hl as (line & pos & c & Hlen & Hhex & Hpos & Hc & ->).
  intros Hkey. rewrite forallb_forall in Hhex, Hkey.
  apply forallb_forall. intros x Hx.
  apply list_elem_of_In, list_elem_of_lookup in Hx as (j & Hx).
  destruct (decide (j = pos)) as [->|Hj].
  - rewrite list_lookup_insert_eq in Hx
      by (rewrite Hlen; eapply POSITIONS_lt; eassumption).
    injection Hx as <-. apply Hkey, list_elem_of_In.
    eapply list_elem_of_lookup_2; eassumption.
  - rewrite list_lookup_insert_ne in Hx by congruence.
    apply list_elem_of_lookup_2, list_elem_of_In, Hhex in Hx.
    apply lower_hex_hexdigit, hexdigit_not_surrogate in Hx. rewrite Hx. reflexivity.
Qed.

Lemma embedded_line_no_linebreak :
  forallb (fun c => negb (is_linebreak c)) secret_key = true ->
  forallb (fun c => negb (is_linebreak c)) l = true.
Proof.
  destruct Hl as (line & pos & c & Hlen & Hhex & Hpos & Hc & ->).
  intros Hkey. rewrite forallb_forall in Hhex, Hkey.
  apply forallb_forall. intros x Hx.
  apply list_elem_of_In, list_elem_of_lookup in Hx as (j & Hx).
  destruct (decide (j = pos)) as [->|Hj].
  - rewrite list_lookup_insert_eq in Hx
      by (rewrite Hlen; eapply POSITIONS_lt; eassumption).
    injection Hx as <-. apply Hkey, list_elem_of_In.
    eapply list_elem_of_lookup_2; eassumption.
  - rewrite list_lookup_insert_ne in Hx by congruence.
    apply list_elem_of_lookup_2, list_elem_of_In, Hhex in Hx.
    apply lower_hex_hexdigit, hexdigit_not_linebreak in Hx. rewrite Hx. reflexivity.
Qed.
End EmbeddedLine.

Lemma write_file_with_key_raise (secret_key filename : list N) (w : World) :
  length secret_key <> NUM_LINES ->
  write_file_with_key secret_key filename w = (Raise (ValueError msg_key_length), w).
Proof.
  intros Hlen. unfold write_file_with_key.
  apply Nat.eqb_neq in Hlen. rewrite Hlen. reflexivity.
Qed.

(** The world after the ten lines were drawn. *)
Definition lines_drawn (w : World) : World :=
  set_consumed (consumed w + NUM_LINES * (LINE_LENGTH / 2))%nat w.

(** With a key of 10 characters the embedder builds ten embedded lines and
    hands their text to [write_text]; what follows is the outcome of that
    call. *)
Lemma write_file_with_key_cases (secret_key filename : list N) (w : World) :
  length secret_key = NUM_LINES ->
  exists lines,
    Forall2 (embedded_line secret_key) (seq 0 NUM_LINES) lines /\
    write_file_with_key secret_key filename w
    = match write_error w filename with
      | Some msg => (Raise (OSError msg), lines_drawn w)
      | None =>
          let text := str_join [LF] lines ++ [LF] in
          match first_surrogate text with
          | Some start =>
              (Raise (UnicodeEncodeError text start
                        (start + surrogate_prefix (drop start text))),
               set_fs (<[filename := []]> (fs w)) (lines_drawn w))
          | None =>
              (Ok tt,
               mkWorld (<[filename := text]> (fs w)) (write_error w) (entropy w)
                 (consumed w + NUM_LINES * (LINE_LENGTH / 2))%nat
                 (stdout w ++ [msg_written filename; msg_generated secret_key]))
          end
      end.
Proof.
  intros Hlen.
  destruct (embed_loop_run secret_key NUM_LINES 0 [] w) as (lines & Hlines & Hloop).
  { rewrite Hlen. reflexivity. }
  { reflexivity. }
  exists lines. split; [exact Hlines|].
  unfold write_file_with_key. rewrite Hlen. cbn [Nat.eqb NUM_LINES negb].
  unfold bind at 1. rewrite Hloop. cbn [app].
  unfold bind at 1, write_text. fold (lines_drawn w).
  change (write_error (lines_drawn w)) with (write_error w).
  destruct (write_error w filename) as [msg|]; [reflexivity|].
  cbv zeta. destruct (first_surrogate (str_join [LF] lines ++ [LF])) as [start|];
    [reflexivity|].
  unfold bind, print, set_fs, set_stdout, lines_drawn, set_consumed. cbn.
  rewrite <- app_assoc. reflexivity.
Qed.

(** The text of embedded lines can be encoded exactly when the key can. *)
Lemma embedded_text_surrogate (secret_key : list N) (lines : list (list N)) :
  length secret_key = NUM_LINES ->
  Forall2 (embedded_line secret_key) (seq 0 NUM_LINES) lines ->
  first_surrogate (str_join [LF] lines ++ [LF]) = None <->
  forallb (fun c => negb (is_surrogate c)) secret_key = true.
Proof.
  intros Hlen HF. rewrite first_surrogate_None. split.
  - intros Htext. rewrite forallb_forall in Htext. apply forallb_forall.
    intros c Hc. apply list_elem_of_In, list_elem_of_lookup in Hc as (i & Hi).
    pose proof (lookup_lt_Some _ _ _ Hi) as Hlt. rewrite Hlen in Hlt.
    destruct (Forall2_lookup_l _ _ _ i i HF) as (l & Hl & Hline).
    { apply lookup_seq. split; [reflexivity|exact Hlt]. }
    destruct (lookup_lt_is_Some_2 POSITIONS i) as [pos Hpos]; [exact Hlt|].
    pose proof (embedded_line_key _ _ _ Hline pos Hpos) as Hat. rewrite Hi in Hat.
    apply Htext, list_elem_of_In, elem_of_app. left.
    eapply elem_of_str_join; eapply list_elem_of_lookup_2; eassumption.
  - intros Hkey. apply forallb_str_join; [reflexivity..|].
    apply Forall_lookup. intros i l Hi.
    destruct (Forall2_lookup_r _ _ _ _ _ HF Hi) as (j & _ & Hline).
    eapply embedded_line_no_surrogate; eassumption.
Qed.

Lemma write_file_with_key_run (secret_key filename : list N) (w : World) :
  length secret_key = NUM_LINES ->
  forallb (fun c => negb (is_surrogate c)) secret_key = true ->
  write_error w filename = None ->
  exists lines,
    Forall2 (embedded_line secret_key) (seq 0 NUM_LINES) lines /\
    write_file_with_key secret_key filename w
    = (Ok tt,
       mkWorld (<[filename := str_join [LF] lines ++ [LF]]> (fs w)) (write_error w)
         (entropy w) (consumed w + NUM_LINES * (LINE_LENGTH / 2))%nat
         (stdout w ++ [msg_written filename; msg_generated secret_key])).
Proof.
  intros Hlen Henc Hwr.
  destruct (write_file_with_key_cases secret_key filename w Hlen) as (lines & HF & Hrun).
  exists lines. split; [exact HF|]. rewrite Hrun, Hwr. cbv zeta.
  rewrite (proj2 (embedded_text_surrogate secret_key lines Hlen HF) Henc). reflexivity.
Qed.

(** The embedder changes no file but its target. *)
Lemma write_file_with_key_frame (secret_key filename other : list N) (w : World) :
  other <> filename ->
  fs (snd (write_file_with_key secret_key filename w)) !! other = fs w !! other.
Proof.
  intros Hother.
  destruct (decide (length secret_key = NUM_LINES)) as [Hlen|Hlen].
  - destruct (write_file_with_key_cases secret_key filename w Hlen) as (lines & _ & ->).
    destruct (write_error w filename) as [msg|]; [reflexivity|]. cbv zeta.
    destruct (first_surrogate _) as [start|]; cbn [snd fs set_fs];
      apply lookup_insert_ne; congruence.
  - rewrite (write_file_with_key_raise secret_key filename w Hlen). reflexivity.
Qed.

(** ** The extractor *)

Lemma extract_loop_ok (content : list (list N)) :
  forall start acc w,
    Forall (fun l => length l = LINE_LENGTH) content ->
    (start + length content <= length POSITIONS)%nat ->
    exists key : list N,
      length key = length content /\
      (forall k line pos,
          content !! k = Some line -> POSITIONS !! (start + k)%nat = Some pos ->
          key !! k = line !! pos) /\
      for_each (enumerate_from start content) extract_step acc w
      = (Ok (acc ++ ((fun c => [c]) <$> key)), w).
Proof.
  induction content as [|line rest IH]; intros start acc w Hall Hstart.
  - exists []. split; [reflexivity|]. split.
    + intros k line pos Hk. rewrite lookup_nil in Hk. discriminate.
    + cbn. unfold ret. rewrite app_nil_r. reflexivity.
  - apply Forall_cons in Hall as [Hline Hrest]. cbn [length] in Hstart.
    destruct (lookup_lt_is_Some_2 POSITIONS start) as [pos Hpos]; [lia|].
    destruct (lookup_lt_is_Some_2 line pos) as [c Hc].
    { rewrite Hline. eapply POSITIONS_lt; eassumption. }
    destruct (IH (S start) (acc ++ [[c]]) w Hrest) as (key & Hlen & Hkey & Hloop); [lia|].
    exists (c :: key). split; [cbn; lia|]. split.
    + intros [|k] line' pos' Hk Hpos'.
      * rewrite Nat.add_0_r in Hpos'. cbn in Hk.
        assert (pos' = pos) as -> by congruence.
        assert (line' = line) as -> by congruence.
        rewrite Hc. reflexivity.
      * cbn in Hk. cbn [lookup list_lookup]. apply Hkey; [exact Hk|].
        rewrite <- Hpos'. f_equal. lia.
    + cbn [enumerate_from for_each]. unfold bind at 1. unfold extract_step at 1.
      apply Nat.eqb_eq in Hline. rewrite Hline. cbn [negb].
      unfold bind, list_getitem, str_getitem. rewrite Hpos. unfold ret at 1.
      rewrite Hc. unfold ret. cbv beta iota. rewrite Hloop, fmap_cons, <- app_assoc.
      reflexivity.
Qed.

Lemma extract_loop_raise (content : list (list N)) :
  forall start acc w,
    Exists (fun l => length l <> LINE_LENGTH) content ->
    (start + length content <= length POSITIONS)%nat ->
    exists i line,
      content !! i = Some line /\ length line <> LINE_LENGTH /\
      (forall j l, (j < i)%nat -> content !! j = Some l -> length l = LINE_LENGTH) /\
      for_each (enumerate_from start content) extract_step acc w
      = (Raise (ValueError (msg_line_length (start + i) (length line))), w).
Proof.
  induction content as [|line rest IH]; intros start acc w Hex Hstart.
  - inversion Hex.
  - cbn [length] in Hstart.
    destruct (decide (length line = LINE_LENGTH)) as [Hline|Hline].
    + apply Exists_cons in Hex as [Hex|Hex]; [contradiction|].
      destruct (lookup_lt_is_Some_2 POSITIONS start) as [pos Hpos]; [lia|].
      destruct (lookup_lt_is_Some_2 line pos) as [c Hc].
      { rewrite Hline. eapply POSITIONS_lt; eassumption. }
      destruct (IH (S start) (acc ++ [[c]]) w Hex) as (i & l & Hi & Hl & Hbefore & Hloop);
        [lia|].
      exists (S i), l. split; [exact Hi|]. split; [exact Hl|]. split.
      * intros [|j] l' Hj Hl'; [cbn in Hl'; congruence|].
        cbn in Hl'. eapply Hbefore; [|eassumption]. lia.
      * cbn [enumerate_from for_each]. unfold bind at 1. unfold extract_step at 1.
        apply Nat.eqb_eq in Hline. rewrite Hline. cbn [negb].
        unfold bind, list_getitem, str_getitem. rewrite Hpos. unfold ret at 1.
        rewrite Hc. unfold ret. cbv beta iota. rewrite Hloop.
        replace (S start + i)%nat with (start + S i)%nat by lia. reflexivity.
    + exists 0%nat, line. split; [reflexivity|]. split; [exact Hline|]. split.
      * intros j l Hj. lia.
      * cbn [enumerate_from for_each]. unfold bind at 1. unfold extract_step at 1.
        apply Nat.eqb_neq in Hline. rewrite Hline. cbn [negb]. unfold raise.
        rewrite Nat.add_0_r. reflexivity.
Qed.

Section Extractor.
Context (filename : list N) (w : World).

Lemma extract_absent :
  fs w !! filename = None ->
  extract_key_from_file filename w
  = (Raise (FileNotFoundError (msg_not_found filename)), w).
Proof.
  intros Hfs. unfold extract_key_from_file, bind, path_exists.
  rewrite Hfs. reflexivity.
Qed.

Context (text : list N).
Hypothesis Hfs : fs w !! filename = Some text.

Lemma extract_present :
  extract_key_from_file filename w
  = if negb (length (splitlines text) =? NUM_LINES)%nat then
      (Raise (ValueError (msg_line_count (length (splitlines text)))), w)
    else
      (extracted_chars <- for_each (enumerate (splitlines text)) extract_step [] ;;
       ret (str_join [] extracted_chars)) w.
Proof.
  unfold extract_key_from_file, bind at 1, path_exists.
  rewrite Hfs. rewrite bool_decide_eq_true_2 by (eexists; reflexivity).
  cbn [negb]. unfold bind at 1, read_text. rewrite Hfs.
  rewrite splitlines_universal_newlines.
  destruct (negb (length (splitlines text) =? NUM_LINES)%nat); reflexivity.
Qed.

Lemma extract_line_count :
  length (splitlines text) <> NUM_LINES ->
  extract_key_from_file filename w
  = (Raise (ValueError (msg_line_count (length (splitlines text)))), w).
Proof.
  intros Hn. rewrite extract_present.
  apply Nat.eqb_neq in Hn. rewrite Hn. reflexivity.
Qed.

Lemma extract_line_length :
  length (splitlines text) = NUM_LINES ->
  Exists (fun l => length l <> LINE_LENGTH) (splitlines text) ->
  exists i line,
    splitlines text !! i = Some line /\ length line <> LINE_LENGTH /\
    (forall j l, (j < i)%nat -> splitlines text !! j = Some l -> length l = LINE_LENGTH) /\
    extract_key_from_file filename w
    = (Raise (ValueError (msg_line_length i (length line))), w).
Proof.
  intros Hn Hex. rewrite extract_present. rewrite Hn. cbn [Nat.eqb NUM_LINES negb].
  destruct (extract_loop_raise (splitlines text) 0 [] w Hex)
    as (i & line & Hi & Hline & Hbefore & Hloop).
  { rewrite Hn. reflexivity. }
  exists i, line. repeat (split; [assumption|]).
  unfold bind, enumerate. rewrite Hloop. reflexivity.
Qed.

Lemma extract_ok :
  length (splitlines text) = NUM_LINES ->
  Forall (fun l => length l = LINE_LENGTH) (splitlines text) ->
  exists key : list N,
    length key = NUM_LINES /\
    (forall i line pos,
        splitlines text !! i = Some line -> POSITIONS !! i = Some pos ->
        key !! i = line !! pos) /\
    extract_key_from_file filename w = (Ok key, w).
Proof.
  intros Hn Hall. rewrite extract_present. rewrite Hn. cbn [Nat.eqb NUM_LINES negb].
  destruct (extract_loop_ok (splitlines text) 0 [] w Hall)
    as (key & Hlen & Hkey & Hloop).
  { rewrite Hn. reflexivity. }
  exists key. split; [congruence|]. split; [exact Hkey|].
  unfold bind, enumerate. rewrite Hloop. unfold ret. cbn [app].
  rewrite str_join_empty. f_equal. f_equal.
  clear. induction key as [|c key IH]; [reflexivity|].
  rewrite fmap_cons. cbn [concat app]. rewrite IH. reflexivity.
Qed.
End Extractor.

(** ** Embedding followed by extraction *)

Lemma embedded_lines_lookup (secret_key : list N) (n : nat) (lines : list (list N)) :
  Forall2 (embedded_line secret_key) (seq 0 n) lines ->
  forall i line, lines !! i = Some line -> embedded_line secret_key i line.
Proof.
  intros HF i line Hi.
  destruct (Forall2_lookup_r _ _ _ _ _ HF Hi) as (j & Hj & Hline).
  apply lookup_seq in Hj as [-> _]. exact Hline.
Qed.

Lemma embedded_lines_split (secret_key : list N) (lines : list (list N)) :
  Forall2 (embedded_line secret_key) (seq 0 NUM_LINES) lines ->
  forallb (fun c => negb (is_linebreak c)) secret_key = true ->
  splitlines (str_join [LF] lines ++ [LF]) = lines.
Proof.
  intros HF Hkey. rewrite str_join_lines.
  - apply splitlines_concat_lines, Forall_lookup. intros i line Hi.
    eapply embedded_line_no_linebreak; [|exact Hkey].
    eapply embedded_lines_lookup; eassumption.
  - apply Forall2_length in HF. intros ->. discriminate HF.
Qed.

(** A successful embedding leaves the text of ten embedded lines in the
    file. *)
Lemma write_file_with_key_ok_inv (secret_key filename : list N) (w w1 : World) :
  write_file_with_key secret_key filename w = (Ok tt, w1) ->
  length secret_key = NUM_LINES /\
  write_error w filename = None /\
  forallb (fun c => negb (is_surrogate c)) secret_key = true /\
  exists lines,
    Forall2 (embedded_line secret_key) (seq 0 NUM_LINES) lines /\
    w1 = mkWorld (<[filename := str_join [LF] lines ++ [LF]]> (fs w)) (write_error w)
           (entropy w) (consumed w + NUM_LINES * (LINE_LENGTH / 2))%nat
           (stdout w ++ [msg_written filename; msg_generated secret_key]).
Proof.
  intros Hw.
  destruct (decide (length secret_key = NUM_LINES)) as [Hlen|Hlen];
    [|rewrite (write_file_with_key_raise _ _ _ Hlen) in Hw; discriminate Hw].
  destruct (write_file_with_key_cases secret_key filename w Hlen) as (lines & HF & Hrun).
  rewrite Hrun in Hw. destruct (write_error w filename) as [msg|]; [discriminate Hw|].
  cbv zeta in Hw.
  destruct (first_surrogate (str_join [LF] lines ++ [LF])) as [start|] eqn:Hs;
    [discriminate Hw|].
  split; [exact Hlen|]. split; [reflexivity|].
  split; [exact (proj1 (embedded_text_surrogate secret_key lines Hlen HF) Hs)|].
  exists lines. split; [exact HF|]. injection Hw as <-. reflexivity.
Qed.

(** Extraction from the document of a key without line boundaries returns
    the key. *)
Lemma embedded_extract (secret_key filename : list N) (w w1 : World) :
  write_file_with_key secret_key filename w = (Ok tt, w1) ->
  forallb (fun c => negb (is_linebreak c)) secret_key = true ->
  extract_key_from_file filename w1 = (Ok secret_key, w1).
Proof.
  intros Hw Hkey.
  destruct (write_file_with_key_ok_inv _ _ _ _ Hw) as (Hlen & _ & _ & lines & HF & ->).
  match goal with |- _ _ ?w1 = _ => set (w1' := w1) end.
  assert (Hfs : fs w1' !! filename = Some (str_join [LF] lines ++ [LF])).
  { unfold w1'. cbn [fs]. apply lookup_insert_eq. }
  pose proof (embedded_lines_split _ _ HF Hkey) as Hsplit.
  destruct (extract_ok filename w1' _ Hfs) as (key & Hklen & Hk & Hext).
  { rewrite Hsplit. apply Forall2_length in HF. rewrite <- HF. apply length_seq. }
  { rewrite Hsplit. apply Forall_lookup. intros i line Hi.
    eapply embedded_line_length, embedded_lines_lookup; eassumption. }
  rewrite Hext. do 2 f_equal. rewrite Hsplit in Hk.
  apply list_eq. intros i.
  destruct (lines !! i) as [line|] eqn:Hi.
  - pose proof (embedded_lines_lookup _ _ _ HF i line Hi) as Hline.
    destruct Hline as (line0 & pos & c & Hl0 & Hhex & Hpos & Hc & Heq).
    rewrite (Hk i line pos Hi Hpos).
    eapply embedded_line_key; [|exact Hpos].
    exists line0, pos, c. auto.
  - apply lookup_ge_None in Hi. apply Forall2_length in HF.
    rewrite length_seq in HF.
    rewrite (proj2 (lookup_ge_None key i)) by lia.
    rewrite (proj2 (lookup_ge_None secret_key i)) by lia. reflexivity.
Qed.

Lemma embed_then_extract (secret_key filename : list N) (w : World) :
  length secret_key = NUM_LINES ->
  forallb (fun c => negb (is_surrogate c)) secret_key = true ->
  write_error w filename = None ->
  forallb (fun c => negb (is_linebreak c)) secret_key = true ->
  exists w1,
    write_file_with_key secret_key filename w = (Ok tt, w1) /\
    extract_key_from_file filename w1 = (Ok secret_key, w1).
Proof.
  intros Hlen Henc Hwr Hkey.
  destruct (write_file_with_key_run secret_key filename w Hlen Henc Hwr)
    as (lines & _ & Hrun).
  eexists. split; [exact Hrun|]. eapply embedded_extract; eassumption.
Qed.

(** ** Line boundaries inside the key *)

(** The number of line-boundary characters of a text. *)
Fixpoint count_breaks (s : list N) : nat :=
  match s with
  | [] => 0
  | c :: rest => (if is_linebreak c then 1 else 0) + count_breaks rest
  end.

Lemma count_breaks_app (s t : list N) :
  count_breaks (s ++ t) = (count_breaks s + count_breaks t)%nat.
Proof.
  induction s as [|c s IH]; [reflexivity|].
  cbn [app count_breaks]. rewrite IH. lia.
Qed.

Lemma count_breaks_skip_lf (c : N) (rest : list N) :
  (length (skip_lf c rest) <= length rest)%nat /\
  (length (skip_lf c rest) + count_breaks rest
   = length rest + count_breaks (skip_lf c rest))%nat.
Proof.
  destruct rest as [|c' rest']; [cbn; lia|]. cbn [skip_lf].
  destruct (N.eqb_spec c' LF) as [->|Hc']; destruct (c =? CR); cbn; lia.
Qed.

(** No boundary character belongs to a line, and every other character
    belongs to exactly one. *)
Lemma splitlines_from_chars (s : list N) :
  forall cur,
    (length (concat (splitlines_from cur s)) + count_breaks s
     = length cur + length s)%nat.
Proof.
  induction s as [s IH] using (induction_ltof1 _ (@length N)). unfold ltof in IH.
  intros cur. destruct s as [|c rest].
  - destruct cur; cbn; [reflexivity|]. rewrite app_nil_r. lia.
  - cbn [count_breaks length]. destruct (is_linebreak c) eqn:Hc.
    + rewrite splitlines_from_break by exact Hc. cbn [concat].
      rewrite length_app.
      destruct (count_breaks_skip_lf c rest) as [Hle Hskip].
      pose proof (IH (skip_lf c rest) ltac:(cbn; lia) []) as Hrest.
      cbn [length] in Hrest. lia.
    + rewrite splitlines_from_char by exact Hc.
      pose proof (IH rest ltac:(cbn; lia) (cur ++ [c])) as Hrest.
      rewrite length_app in Hrest. cbn [length] in Hrest. lia.
Qed.

Lemma count_breaks_elem (c : N) (s : list N) :
  c ∈ s -> is_linebreak c = true -> (1 <= count_breaks s)%nat.
Proof.
  induction 1 as [c s|c c' s _ IH]; intros Hc; cbn [count_breaks].
  - rewrite Hc. lia.
  - specialize (IH Hc). lia.
Qed.

Lemma count_breaks_lines (lines : list (list N)) :
  forall i l,
    lines !! i = Some l ->
    (count_breaks l + length lines
     <= count_breaks (concat ((fun l => l ++ [LF]) <$> lines)))%nat.
Proof.
  induction lines as [|l' lines IH]; intros i l Hi.
  - rewrite lookup_nil in Hi. discriminate Hi.
  - rewrite fmap_cons. cbn [concat length]. rewrite !count_breaks_app.
    change (count_breaks [LF]) with 1%nat.
    destruct i as [|i]; cbn in Hi.
    + injection Hi as ->. clear IH.
      assert (Hall : (length lines
                      <= count_breaks (concat ((fun l => l ++ [LF]) <$> lines)))%nat).
      { induction lines as [|l0 lines IH0]; [cbn; lia|].
        rewrite fmap_cons. cbn [concat length]. rewrite !count_breaks_app.
        change (count_breaks [LF]) with 1%nat. lia. }
      lia.
    + specialize (IH i l Hi). lia.
Qed.

Lemma length_concat_uniform {A} (n : nat) (ls : list (list A)) :
  Forall (fun l => length l = n) ls -> length (concat ls) = (length ls * n)%nat.
Proof.
  induction 1 as [|l ls Hl _ IH]; [reflexivity|].
  cbn [concat length]. rewrite length_app, IH, Hl. lia.
Qed.

Lemma forallb_false_lookup {A} (f : A -> bool) (l : list A) :
  forallb f l = false -> exists i x, l !! i = Some x /\ f x = false.
Proof.
  induction l as [|x l IH]; [discriminate|]. cbn [forallb]. intros H.
  destruct (f x) eqn:Hx.
  - destruct (IH H) as (i & y & Hi & Hy). exists (S i), y. auto.
  - exists 0%nat, x. auto.
Qed.

(** Extraction from the document of a key that holds a line boundary never
    succeeds: the document then has more than 10 boundaries, so it cannot be
    read as 10 lines of 128 characters. *)
Lemma embed_linebreak_no_extract (secret_key filename : list N) (w w1 : World) :
  length secret_key = NUM_LINES ->
  write_file_with_key secret_key filename w = (Ok tt, w1) ->
  forallb (fun c => negb (is_linebreak c)) secret_key = false ->
  exists e, extract_key_from_file filename w1 = (Raise e, w1).
Proof.
  intros Hlen Hw Hkey.
  destruct (write_file_with_key_ok_inv _ _ _ _ Hw) as (_ & _ & _ & lines & HF & ->).
  match goal with |- context [extract_key_from_file _ ?w1] => set (w1' := w1) end.
  set (text := str_join [LF] lines ++ [LF]).
  assert (Hfs : fs w1' !! filename = Some text) by (cbn [fs]; apply lookup_insert_eq).
  pose proof (Forall2_length _ _ _ HF) as Hn. rewrite length_seq in Hn.
  destruct (decide (length (splitlines text) = NUM_LINES)) as [Hcount|Hcount];
    [|rewrite (extract_line_count filename w1' text Hfs Hcount); eexists; reflexivity].
  destruct (Forall_Exists_dec (fun l : list N => length l = LINE_LENGTH)
              (fun l => length l <> LINE_LENGTH)
              (fun l => decide (length l = LINE_LENGTH)) (splitlines text)) as [Hall|Hex];
    [|destruct (extract_line_length filename w1' text Hfs Hcount Hex)
        as (i & l & _ & _ & _ & ->); eexists; reflexivity].
  exfalso.
  (* the lines of the text hold 1280 characters ... *)
  pose proof (splitlines_from_chars text []) as Hchars. fold (splitlines text) in Hchars.
  rewrite (length_concat_uniform _ _ Hall), Hcount in Hchars.
  (* ... out of the 1290 of the text ... *)
  assert (Htext : text = concat ((fun l => l ++ [LF]) <$> lines)).
  { apply str_join_lines. intros ->. discriminate Hn. }
  assert (Hsize : length text = (NUM_LINES * (LINE_LENGTH + 1))%nat).
  { rewrite Htext, (length_concat_uniform (LINE_LENGTH + 1)).
    - rewrite length_fmap, <- Hn. reflexivity.
    - apply Forall_fmap, Forall_lookup. intros i l Hi. cbn.
      rewrite length_app, (embedded_line_length secret_key i l); [reflexivity|].
      eapply embedded_lines_lookup; eassumption. }
  (* ... although it has at least 11 boundary characters. *)
  destruct (forallb_false_lookup _ _ Hkey) as (i & c & Hi & Hc).
  apply negb_false_iff in Hc.
  assert (Hlt : (i < length lines)%nat).
  { rewrite <- Hn, <- Hlen. eapply lookup_lt_Some; eassumption. }
  destruct (lookup_lt_is_Some_2 _ _ Hlt) as [l Hl].
  pose proof (embedded_lines_lookup _ _ _ HF i l Hl) as Hline.
  destruct (lookup_lt_is_Some_2 POSITIONS i) as [pos Hpos]; [rewrite <- Hn in Hlt; exact Hlt|].
  pose proof (embedded_line_key _ _ _ Hline pos Hpos) as Hat. rewrite Hi in Hat.
  pose proof (count_breaks_elem c l (list_elem_of_lookup_2 _ _ _ Hat) Hc) as Hone.
  pose proof (count_breaks_lines lines i l Hl) as Hmany. rewrite <- Htext in Hmany.
  rewrite Hsize in Hchars. cbn [length] in Hchars.
  unfold NUM_LINES, LINE_LENGTH in *. lia.
Qed.

(** ** The validate command *)

(** What [cmd_validate] prints last, given the extracted key. *)
Definition verdict (k : option (list N)) (extracted : list N) : list N :=
  if truthy k then
    if bool_decide (k = Some extracted) then msg_match else msg_mismatch
  else msg_no_key.

Lemma cmd_validate_extracted (args : Namespace) (w w' : World) (extracted : list N) :
  extract_key_from_file (args_file args) w = (Ok extracted, w') ->
  cmd_validate args w
  = (Ok tt, set_stdout
              (stdout w' ++ [msg_extracted extracted; verdict (args_key args) extracted]) w').
Proof.
  intros Hext. unfold cmd_validate, try_except. rewrite Hext.
  unfold bind, print at 1, verdict.
  destruct (truthy (args_key args)); [destruct (bool_decide _)|];
    unfold print, set_stdout; cbn; rewrite <- app_assoc; reflexivity.
Qed.

Lemma cmd_validate_error (args : Namespace) (w w' : World) (e : exn) :
  extract_key_from_file (args_file args) w = (Raise e, w') ->
  cmd_validate args w = (Ok tt, set_stdout (stdout w' ++ [msg_error e]) w').
Proof.
  intros Hext. unfold cmd_validate, try_except. rewrite Hext. reflexivity.
Qed.

(** Extraction never changes the world (it only reads). *)
Lemma extract_world (filename : list N) (w : World) :
  snd (extract_key_from_file filename w) = w.
Proof.
  destruct (fs w !! filename) as [text|] eqn:Hfs.
  - destruct (decide (length (splitlines text) = NUM_LINES)) as [Hn|Hn].
    + destruct (Forall_Exists_dec (fun l : list N => length l = LINE_LENGTH)
                  (fun l => length l <> LINE_LENGTH)
                  (fun l => decide (length l = LINE_LENGTH)) (splitlines text)) as [Hall|Hex].
      * destruct (extract_ok filename w text Hfs Hn Hall) as (key & _ & _ & ->).
        reflexivity.
      * destruct (extract_line_length filename w text Hfs Hn Hex) as (i & l & _ & _ & _ & ->).
        reflexivity.
    + rewrite (extract_line_count filename w text Hfs Hn). reflexivity.
  - rewrite (extract_absent filename w Hfs). reflexivity.
Qed.

(** The texts printed by a run of [m] from [w]. *)
Definition printed {A} (m : M A) (w : World) : list (list N) :=
  drop (length (stdout w)) (stdout (snd (m w))).

(** [cmd_validate] reports [msg]: it is the last text the run prints. *)
Definition reports (msg : list N) (args : Namespace) (w : World) : Prop :=
  last (printed (cmd_validate args) w) = Some msg.

Lemma printed_validate_extracted (args : Namespace) (w w' : World) (extracted : list N) :
  extract_key_from_file (args_file args) w = (Ok extracted, w') ->
  printed (cmd_validate args) w
  = [msg_extracted extracted; verdict (args_key args) extracted].
Proof.
  intros Hext. unfold printed. rewrite (cmd_validate_extracted _ _ _ _ Hext).
  pose proof (extract_world (args_file args) w) as Hw. rewrite Hext in Hw.
  cbn in Hw. subst w'. cbn. rewrite drop_app_length. reflexivity.
Qed.

Lemma msg_match_mismatch : msg_match <> msg_mismatch.
Proof. intros H. vm_compute in H. discriminate H. Qed.

Lemma msg_match_no_key : msg_match <> msg_no_key.
Proof. intros H. vm_compute in H. discriminate H. Qed.

Lemma msg_mismatch_no_key : msg_mismatch <> msg_no_key.
Proof. intros H. vm_compute in H. discriminate H. Qed.

(** ** A concrete run *)

Definition example_key : list N := pystr "0123456789".

Definition example_world : World := mkWorld ∅ (fun _ => None) (fun _ => Byte.x5a) 0 [].

(** The world after [write_file_with_key example_key DEFAULT_FILENAME]. *)
Definition example_written : World :=
  snd (write_file_with_key example_key DEFAULT_FILENAME example_world).

(** A key that starts with a line feed: ten characters, none hexadecimal
    digits apart from the last nine. *)
Definition newline_key : list N := LF :: pystr "123456789".

(** A key that starts with the lone surrogate U+D800. *)
Definition surrogate_key : list N := 55296 :: pystr "123456789".




(** The document of [newline_key] has 11 lines. *)
Lemma newline_key_document :
  exists w1 text,
    write_file_with_key newline_key DEFAULT_FILENAME example_world = (Ok tt, w1) /\
    fs w1 !! DEFAULT_FILENAME = Some text /\
    length (splitlines text) = 11%nat.
Proof.
  destruct (write_file_with_key_run newline_key DEFAULT_FILENAME example_world)
    as (lines & _ & Hrun); [reflexivity..|].
  eexists. eexists. split; [exact Hrun|]. split; [apply lookup_insert_eq|].
  assert (Hfs : fs (snd (write_file_with_key newline_key DEFAULT_FILENAME example_world))
                !! DEFAULT_FILENAME = Some (str_join [LF] lines ++ [LF])).
  { rewrite Hrun. apply lookup_insert_eq. }
  assert (Hlen : (length ∘ splitlines)
                   <$> fs (snd (write_file_with_key newline_key DEFAULT_FILENAME
                                  example_world)) !! DEFAULT_FILENAME
                 = Some 11%nat).
  { vm_compute. reflexivity. }
  rewrite Hfs in Hlen. cbn in Hlen. injection Hlen as Hlen. exact Hlen.
Qed.

(** Embedding [surrogate_key] raises from [write_text] and leaves the file
    empty; nothing is printed. *)
Lemma surrogate_key_raises :
  exists text w1,
    write_file_with_key surrogate_key DEFAULT_FILENAME example_world
    = (Raise (UnicodeEncodeError text 0 1), w1) /\
    fs w1 !! DEFAULT_FILENAME = Some [] /\ stdout w1 = [].
Proof.
  eexists. eexists. split; [vm_compute; reflexivity|].
  split; [vm_compute; reflexivity|reflexivity].
Qed.


Lemma example_written_extract :
  extract_key_from_file DEFAULT_FILENAME example_written = (Ok example_key, example_written).
Proof.
  destruct (embed_then_extract example_key DEFAULT_FILENAME example_world)
    as (w1 & Hw & He); [reflexivity..|].
  unfold example_written. rewrite Hw. exact He.
Qed.

(** * The claims *)

(** C1: for every 10-character hexadecimal key, extracting from the document
    that embedding the key wrote returns the key itself, whatever the random
    source yields for the filler characters (the entropy of [w] is
    arbitrary); and the embedding does write the document whenever the path
    can be opened for writing. *)
Theorem extract_write_roundtrip (secret_key filename : list N) (w : World) :
  length secret_key = 10%nat ->
  forallb is_hexdigit secret_key = true ->
  (forall w1,
      write_file_with_key secret_key filename w = (Ok tt, w1) ->
      extract_key_from_file filename w1 = (Ok secret_key, w1)) /\
  (write_error w filename = None ->
   exists w1,
     write_file_with_key secret_key filename w = (Ok tt, w1) /\
     extract_key_from_file filename w1 = (Ok secret_key, w1)).
Proof.
  intros Hlen Hhex. rewrite forallb_forall in Hhex.
  assert (Hnb : forallb (fun c => negb (is_linebreak c)) secret_key = true).
  { apply forallb_forall. intros c Hc.
    rewrite (hexdigit_not_linebreak c (Hhex c Hc)). reflexivity. }
  assert (Henc : forallb (fun c => negb (is_surrogate c)) secret_key = true).
  { apply forallb_forall. intros c Hc.
    rewrite (hexdigit_not_surrogate c (Hhex c Hc)). reflexivity. }
  split.
  - intros w1 Hw. eapply embedded_extract; eassumption.
  - intros Hwr. apply embed_then_extract; assumption.
Qed.

Lemma extract_write_roundtrip_example :
  length example_key = 10%nat /\ forallb is_hexdigit example_key = true /\
  exists w1,
    write_file_with_key example_key DEFAULT_FILENAME example_world = (Ok tt, w1) /\
    extract_key_from_file DEFAULT_FILENAME w1 = (Ok example_key, w1).
Proof.
  split; [reflexivity|]. split; [reflexivity|].
  apply (proj2 (extract_write_roundtrip example_key DEFAULT_FILENAME example_world
                  eq_refl eq_refl)).
  reflexivity.
Defined.

(** C2: extraction raises exactly when the file is absent, the number of
    lines is not 10, or some line is not 128 characters long (and then with
    the error of the first failing check); on a file of 10 lines of 128
    characters it returns, as the key, the character at [POSITIONS[i]] of
    line [i] for i = 0..9. Lines are those of [str.splitlines]. *)
Theorem extract_key_from_file_spec (filename : list N) (w : World) :
  ((exists e, fst (extract_key_from_file filename w) = Raise e) <->
   (fs w !! filename = None \/
    exists text, fs w !! filename = Some text /\
      (length (splitlines text) <> 10%nat \/
       Exists (fun l => length l <> 128%nat) (splitlines text)))) /\
  (fs w !! filename = None ->
   extract_key_from_file filename w
   = (Raise (FileNotFoundError (msg_not_found filename)), w)) /\
  (forall text, fs w !! filename = Some text ->
     (length (splitlines text) <> 10%nat ->
      extract_key_from_file filename w
      = (Raise (ValueError (msg_line_count (length (splitlines text)))), w)) /\
     (length (splitlines text) = 10%nat ->
      Exists (fun l => length l <> 128%nat) (splitlines text) ->
      exists i line,
        splitlines text !! i = Some line /\ length line <> 128%nat /\
        extract_key_from_file filename w
        = (Raise (ValueError (msg_line_length i (length line))), w)) /\
     (length (splitlines text) = 10%nat ->
      Forall (fun l => length l = 128%nat) (splitlines text) ->
      exists key,
        extract_key_from_file filename w = (Ok key, w) /\
        length key = 10%nat /\
        forall i line pos,
          splitlines text !! i = Some line -> POSITIONS !! i = Some pos ->
          key !! i = line !! pos)).
Proof.
  assert (Hcases : forall text, fs w !! filename = Some text ->
     (length (splitlines text) <> 10%nat ->
      extract_key_from_file filename w
      = (Raise (ValueError (msg_line_count (length (splitlines text)))), w)) /\
     (length (splitlines text) = 10%nat ->
      Exists (fun l => length l <> 128%nat) (splitlines text) ->
      exists i line,
        splitlines text !! i = Some line /\ length line <> 128%nat /\
        extract_key_from_file filename w
        = (Raise (ValueError (msg_line_length i (length line))), w)) /\
     (length (splitlines text) = 10%nat ->
      Forall (fun l => length l = 128%nat) (splitlines text) ->
      exists key,
        extract_key_from_file filename w = (Ok key, w) /\
        length key = 10%nat /\
        forall i line pos,
          splitlines text !! i = Some line -> POSITIONS !! i = Some pos ->
          key !! i = line !! pos)).
  { intros text Hfs. split; [|split].
    - apply extract_line_count. exact Hfs.
    - intros Hn Hex.
      destruct (extract_line_length filename w text Hfs Hn Hex) as (i & l & Hi & Hl & _ & Hr).
      exists i, l. auto.
    - intros Hn Hall.
      destruct (extract_ok filename w text Hfs Hn Hall) as (key & Hlen & Hkey & Hr).
      exists key. auto. }
  split; [|split; [apply extract_absent|exact Hcases]].
  split.
  - intros [e He]. destruct (fs w !! filename) as [text|] eqn:Hfs; [|left; reflexivity].
    right. exists text. split; [reflexivity|].
    destruct (decide (length (splitlines text) = 10%nat)) as [Hn|Hn]; [|left; exact Hn].
    right.
    destruct (Forall_Exists_dec (fun l : list N => length l = 128%nat)
                (fun l => length l <> 128%nat)
                (fun l => decide (length l = 128%nat)) (splitlines text)) as [Hall|Hex];
      [|exact Hex].
    destruct (Hcases text eq_refl) as (_ & _ & Hok).
    destruct (Hok Hn Hall) as (key & Hr & _). rewrite Hr in He. discriminate He.
  - intros [Hfs|(text & Hfs & Hbad)].
    + rewrite (extract_absent filename w Hfs). eexists. reflexivity.
    + destruct (decide (length (splitlines text) = 10%nat)) as [Hn|Hn].
      * destruct Hbad as [Hbad|Hex]; [contradiction|].
        destruct (extract_line_length filename w text Hfs Hn Hex) as (i & l & _ & _ & _ & Hr).
        rewrite Hr. eexists. reflexivity.
      * rewrite (extract_line_count filename w text Hfs Hn). eexists. reflexivity.
Qed.

(** C3, as stated, fails at two keys of 10 characters: with a line
    boundary in the key the document has 11 lines, and with a lone
    surrogate in the key nothing is written but an empty file. *)
Lemma ten_lines_counterexample :
  (length newline_key = 10%nat /\
   exists w1 text,
     write_file_with_key newline_key DEFAULT_FILENAME example_world = (Ok tt, w1) /\
     fs w1 !! DEFAULT_FILENAME = Some text /\
     length (splitlines text) = 11%nat) /\
  (length surrogate_key = 10%nat /\
   exists text w1,
     write_file_with_key surrogate_key DEFAULT_FILENAME example_world
     = (Raise (UnicodeEncodeError text 0 1), w1) /\
     fs w1 !! DEFAULT_FILENAME = Some []).
Proof.
  split; (split; [reflexivity|]).
  - exact newline_key_document.
  - destruct surrogate_key_raises as (text & w1 & Hw & Hfs & _).
    exists text, w1. split; assumption.
Qed.

(** C3, amended: for every 10-character key that UTF-8 can encode (no lone
    surrogate), written to a path that can be opened for writing, the text
    the embedder writes is made of exactly 10 chunks joined by newlines and
    followed by a newline; each chunk has exactly 128 characters; chunk [i]
    holds [key[i]] at offset [POSITIONS[i]], with
    POSITIONS = [0,4,8,16,32,64,96,112,120,127]; every other character is a
    lowercase hexadecimal digit; and when no character of the key is a line
    boundary, the chunks are exactly the lines of the document. *)
Theorem write_file_with_key_document (secret_key filename : list N) (w : World) :
  length secret_key = 10%nat ->
  forallb (fun c => negb (is_surrogate c)) secret_key = true ->
  write_error w filename = None ->
  exists lines w1,
    write_file_with_key secret_key filename w = (Ok tt, w1) /\
    fs w1 !! filename = Some (str_join [LF] lines ++ [LF]) /\
    length lines = 10%nat /\
    POSITIONS = [0; 4; 8; 16; 32; 64; 96; 112; 120; 127]%nat /\
    (forall i line,
        lines !! i = Some line ->
        length line = 128%nat /\
        exists pos,
          POSITIONS !! i = Some pos /\ line !! pos = secret_key !! i /\
          forall j c, j <> pos -> line !! j = Some c -> is_lower_hex c = true) /\
    (forallb (fun c => negb (is_linebreak c)) secret_key = true ->
     splitlines (str_join [LF] lines ++ [LF]) = lines).
Proof.
  intros Hlen Henc Hwr.
  destruct (write_file_with_key_run secret_key filename w Hlen Henc Hwr)
    as (lines & HF & Hrun).
  exists lines. eexists. split; [exact Hrun|].
  split; [cbn [fs]; apply lookup_insert_eq|].
  split; [apply Forall2_length in HF; rewrite <- HF; reflexivity|].
  split; [reflexivity|]. split; [|apply embedded_lines_split; exact HF].
  intros i line Hi.
  pose proof (embedded_lines_lookup _ _ _ HF i line Hi) as Hline.
  split; [eapply embedded_line_length; exact Hline|].
  destruct Hline as (line0 & pos & c & Hl0 & Hhex & Hpos & Hc & Heq).
  assert (Hline : embedded_line secret_key i line) by (exists line0, pos, c; auto).
  exists pos. split; [exact Hpos|]. split.
  - eapply embedded_line_key; eassumption.
  - intros j c' Hj Hlook. eapply embedded_line_filler; eassumption.
Qed.

Lemma write_file_with_key_document_example :
  length example_key = 10%nat /\
  exists lines w1,
    write_file_with_key example_key DEFAULT_FILENAME example_world = (Ok tt, w1) /\
    fs w1 !! DEFAULT_FILENAME = Some (str_join [LF] lines ++ [LF]) /\
    length lines = 10%nat /\
    splitlines (str_join [LF] lines ++ [LF]) = lines /\
    forall i line,
      lines !! i = Some line ->
      length line = 128%nat /\
      exists pos,
        POSITIONS !! i = Some pos /\ line !! pos = example_key !! i /\
        forall j c, j <> pos -> line !! j = Some c -> is_lower_hex c = true.
Proof.
  split; [reflexivity|].
  destruct (write_file_with_key_document example_key DEFAULT_FILENAME example_world
              eq_refl eq_refl eq_refl)
    as (lines & w1 & Hw & Hfs & Hlen & _ & Hlines & Hsplit).
  exists lines, w1. split; [exact Hw|]. split; [exact Hfs|]. split; [exact Hlen|].
  split; [apply Hsplit; reflexivity|exact Hlines].
Defined.



(** C5: every call of the key generator returns a string of exactly 10
    characters, each of them in the lowercase hexadecimal alphabet 0-9a-f. *)
Theorem generate_secret_key_hex (w : World) :
  exists key w',
    generate_secret_key w = (Ok key, w') /\
    length key = 10%nat /\ forallb is_lower_hex key = true.
Proof.
  unfold generate_secret_key. rewrite token_hex_run.
  eexists. eexists. split; [reflexivity|]. split.
  - rewrite hexlify_length, length_fmap, length_seq. reflexivity.
  - apply hexlify_lower.
Qed.

(** C6, as stated, fails: with the empty string supplied as the comparison
    key the two strings differ and yet no mismatch is reported. *)
Lemma validate_empty_key_no_mismatch :
  ~ (forall args w extracted w',
        extract_key_from_file (args_file args) w = (Ok extracted, w') ->
        (forall k, args_key args = Some k ->
                   (reports msg_match args w <-> k = extracted) /\
                   (reports msg_mismatch args w <-> k <> extracted)) /\
        (args_key args = None -> reports msg_no_key args w)).
Proof.
  intros H.
  destruct (H (mkArgs DEFAULT_FILENAME (Some [])) example_written example_key
              example_written example_written_extract) as [Hcmp _].
  destruct (Hcmp [] eq_refl) as [_ Hmis].
  assert (Hrep : reports msg_mismatch (mkArgs DEFAULT_FILENAME (Some [])) example_written).
  { apply Hmis. discriminate. }
  unfold reports in Hrep.
  rewrite (printed_validate_extracted (mkArgs DEFAULT_FILENAME (Some [])) _ _ _
             example_written_extract) in Hrep.
  cbn [last args_key verdict truthy] in Hrep. apply (inj Some) in Hrep.
  symmetry in Hrep. exact (msg_mismatch_no_key Hrep).
Qed.

(** C6, amended: when extraction succeeds, a non-empty comparison key is
    compared with the extracted key by exact string equality (a match is
    reported iff they are equal, a mismatch iff they differ), and extraction-only
    completion is reported when no key, or the empty key, was supplied. *)
Theorem cmd_validate_compares (args : Namespace) (w w' : World) (extracted : list N) :
  extract_key_from_file (args_file args) w = (Ok extracted, w') ->
  (forall k, args_key args = Some k -> k <> [] ->
             (reports msg_match args w <-> k = extracted) /\
             (reports msg_mismatch args w <-> k <> extracted)) /\
  (args_key args = None \/ args_key args = Some [] -> reports msg_no_key args w).
Proof.
  intros Hext. unfold reports.
  rewrite (printed_validate_extracted _ _ _ _ Hext). cbn [last]. split.
  - intros k Hk Hne. rewrite Hk. unfold verdict.
    destruct k as [|c k]; [congruence|]. cbn [truthy].
    destruct (decide (c :: k = extracted)) as [Heq|Hneq].
    + rewrite bool_decide_eq_true_2 by congruence. split; split; intros H.
      * exact Heq.
      * reflexivity.
      * apply (inj Some) in H. destruct (msg_match_mismatch H).
      * contradiction.
    + rewrite bool_decide_eq_false_2 by congruence. split; split; intros H.
      * apply (inj Some) in H. symmetry in H. destruct (msg_match_mismatch H).
      * contradiction.
      * exact Hneq.
      * reflexivity.
  - intros [Hk|Hk]; rewrite Hk; reflexivity.
Qed.

Lemma cmd_validate_compares_example :
  extract_key_from_file DEFAULT_FILENAME example_written = (Ok example_key, example_written) /\
  reports msg_match (mkArgs DEFAULT_FILENAME (Some example_key)) example_written.
Proof.
  split; [exact example_written_extract|].
  apply (proj1 (cmd_validate_compares (mkArgs DEFAULT_FILENAME (Some example_key))
                  example_written example_written example_key example_written_extract)
           example_key eq_refl); [discriminate|reflexivity].
Defined.


(** C8: extraction is read-only. Running the extractor leaves the world, and
    so every file, as it was; validation and key generation do not touch the
    file system either; the embedder changes no file but its target, which
    it creates or overwrites when the path can be opened for writing. *)
Theorem extraction_read_only (filename : list N) (w : World) :
  snd (extract_key_from_file filename w) = w /\
  (forall args, fs (snd (cmd_validate args w)) = fs w) /\
  fs (snd (generate_secret_key w)) = fs w /\
  (forall secret_key other,
     other <> filename ->
     fs (snd (write_file_with_key secret_key filename w)) !! other = fs w !! other) /\
  (forall secret_key,
     length secret_key = 10%nat ->
     write_error w filename = None ->
     exists text,
       fs (snd (write_file_with_key secret_key filename w)) = <[filename := text]> (fs w)).
Proof.
  split; [apply extract_world|]. split; [|split; [reflexivity|split]].
  - intros args.
    pose proof (extract_world (args_file args) w) as Hw.
    destruct (extract_key_from_file (args_file args) w) as [[extracted|e] w'] eqn:Hext;
      cbn in Hw; subst w'.
    + rewrite (cmd_validate_extracted _ _ _ _ Hext). reflexivity.
    + rewrite (cmd_validate_error _ _ _ _ Hext). reflexivity.
  - intros secret_key other Hother. apply write_file_with_key_frame. exact Hother.
  - intros secret_key Hlen Hwr.
    destruct (write_file_with_key_cases secret_key filename w Hlen) as (lines & _ & ->).
    rewrite Hwr. cbv zeta. destruct (first_surrogate _); eexists; reflexivity.
Qed.

(** C9, as stated, fails: a key that holds a line boundary is embedded, but
    the document then has 11 lines and extraction raises. *)
Lemma newline_key_not_extracted :
  ~ (forall secret_key filename w,
        length secret_key = 10%nat ->
        exists w1 w2,
          write_file_with_key secret_key filename w = (Ok tt, w1) /\
          extract_key_from_file filename w1 = (Ok secret_key, w2)).
Proof.
  intros H.
  destruct (H newline_key DEFAULT_FILENAME example_world eq_refl) as (w1 & w2 & Hw & He).
  assert (Hfail : fst (extract_key_from_file DEFAULT_FILENAME
                         (snd (write_file_with_key newline_key DEFAULT_FILENAME example_world)))
                  = Raise (ValueError (msg_line_count 11))).
  { vm_compute. reflexivity. }
  rewrite Hw in Hfail. cbn [snd] in Hfail. rewrite He in Hfail. discriminate Hfail.
Qed.

(** C9, amended: the embedder checks only the length of the key, never its
    alphabet: for every string of exactly 10 characters that UTF-8 can
    encode (no lone surrogate), written to a path that can be opened for
    writing, it succeeds and embeds the characters verbatim at the fixed
    positions; extraction returns them back when none of the characters is
    a line boundary of [str.splitlines], and raises when one of them is. *)
Theorem write_extract_any_alphabet (secret_key filename : list N) (w : World) :
  length secret_key = 10%nat ->
  forallb (fun c => negb (is_surrogate c)) secret_key = true ->
  write_error w filename = None ->
  exists lines w1,
    write_file_with_key secret_key filename w = (Ok tt, w1) /\
    fs w1 !! filename = Some (str_join [LF] lines ++ [LF]) /\
    length lines = 10%nat /\
    (forall i line pos,
        lines !! i = Some line -> POSITIONS !! i = Some pos ->
        line !! pos = secret_key !! i) /\
    (forallb (fun c => negb (is_linebreak c)) secret_key = true ->
     extract_key_from_file filename w1 = (Ok secret_key, w1)) /\
    (forallb (fun c => negb (is_linebreak c)) secret_key = false ->
     exists e, extract_key_from_file filename w1 = (Raise e, w1)).
Proof.
  intros Hlen Henc Hwr.
  destruct (write_file_with_key_run secret_key filename w Hlen Henc Hwr)
    as (lines & HF & Hrun).
  exists lines. eexists. split; [exact Hrun|].
  split; [cbn [fs]; apply lookup_insert_eq|].
  split; [apply Forall2_length in HF; rewrite <- HF; reflexivity|].
  split; [|split].
  - intros i line pos Hi Hpos. eapply embedded_line_key; [|exact Hpos].
    eapply embedded_lines_lookup; eassumption.
  - intros Hkey. eapply embedded_extract; eassumption.
  - intros Hkey.
    exact (embed_linebreak_no_extract secret_key filename w _ Hlen Hrun Hkey).
Qed.

(** A key outside the hexadecimal alphabet. *)
Definition plain_key : list N := pystr "Hello, key".

Lemma write_extract_any_alphabet_example :
  length plain_key = 10%nat /\
  forallb is_hexdigit plain_key = false /\
  exists w1,
    write_file_with_key plain_key DEFAULT_FILENAME example_world = (Ok tt, w1) /\
    extract_key_from_file DEFAULT_FILENAME w1 = (Ok plain_key, w1).
Proof.
  split; [reflexivity|]. split; [reflexivity|].
  destruct (write_extract_any_alphabet plain_key DEFAULT_FILENAME example_world
              eq_refl eq_refl eq_refl)
    as (lines & w1 & Hw & _ & _ & _ & He & _).
  exists w1. split; [exact Hw|]. apply He. reflexivity.
Defined.

(** C10: the empty string given as the comparison key is treated as no key:
    [cmd_validate] then behaves as without [--key], and after a successful
    extraction it reports extraction-only completion, not a mismatch. *)
Theorem cmd_validate_empty_key (filename : list N) (w : World) :
  cmd_validate (mkArgs filename (Some [])) w = cmd_validate (mkArgs filename None) w /\
  forall extracted w',
    extract_key_from_file filename w = (Ok extracted, w') ->
    printed (cmd_validate (mkArgs filename (Some []))) w
    = [msg_extracted extracted; msg_no_key] /\
    reports msg_no_key (mkArgs filename (Some [])) w /\
    ~ reports msg_mismatch (mkArgs filename (Some [])) w.
Proof.
  split; [reflexivity|].
  intros extracted w' Hext.
  pose proof (printed_validate_extracted (mkArgs filename (Some [])) w w' extracted Hext)
    as Hprinted.
  cbn [args_key verdict truthy] in Hprinted.
  split; [exact Hprinted|]. unfold reports. rewrite Hprinted. cbn [last].
  split; [reflexivity|].
  intros H. apply (inj Some) in H. symmetry in H. exact (msg_mismatch_no_key H).
Qed.

(** * Further properties of the code *)

(** ** The random source and the key generator *)

Lemma hex_digit_inj (d1 d2 : N) :
  d1 < 16 -> d2 < 16 -> hex_digit d1 = hex_digit d2 -> d1 = d2.
Proof.
  unfold hex_digit. intros H1 H2.
  destruct (N.ltb_spec d1 10), (N.ltb_spec d2 10); lia.
Qed.

Lemma byte_to_N_inj (b1 b2 : byte) : Byte.to_N b1 = Byte.to_N b2 -> b1 = b2.
Proof.
  intros H. pose proof (Byte.of_to_N b1) as H1. rewrite H, Byte.of_to_N in H1.
  congruence.
Qed.

Lemma hexlify_inj (bs1 : list byte) :
  forall bs2, hexlify bs1 = hexlify bs2 -> bs1 = bs2.
Proof.
  unfold hexlify.
  induction bs1 as [|b1 bs1 IH]; intros [|b2 bs2] H; try reflexivity;
    try (rewrite bind_cons in H; discriminate H).
  rewrite !bind_cons in H. cbn [app] in H. injection H as Hhi Hlo Hrest.
  destruct (byte_nibbles b1) as [Hh1 Hl1]. destruct (byte_nibbles b2) as [Hh2 Hl2].
  apply hex_digit_inj in Hhi; [|assumption..].
  apply hex_digit_inj in Hlo; [|assumption..].
  f_equal; [|apply IH; exact Hrest].
  apply byte_to_N_inj.
  rewrite (N.div_mod (Byte.to_N b1) 16), (N.div_mod (Byte.to_N b2) 16) by lia.
  rewrite Hhi, Hlo. reflexivity.
Qed.

Lemma Ok_inj {A} (a b : A) : Ok a = Ok b -> a = b.
Proof. intros H. injection H as H. exact H. Qed.

(** The bytes that the next call of [secrets.token_bytes(n)] returns. *)
Definition next_bytes (n : nat) (w : World) : list byte :=
  entropy w <$> seq (consumed w) n.

(** X1: the key generator returns the hexadecimal rendering of the next five
    bytes of the random source, and its only effect is to advance that
    source by five bytes; two generated keys are equal exactly when the five
    bytes drawn are equal (a key carries all 40 random bits). *)
Theorem generate_secret_key_bytes (w w' : World) :
  generate_secret_key w
  = (Ok (hexlify (next_bytes 5 w)), set_consumed (consumed w + 5)%nat w) /\
  (fst (generate_secret_key w) = fst (generate_secret_key w') <->
   next_bytes 5 w = next_bytes 5 w').
Proof.
  split; [reflexivity|]. unfold generate_secret_key. rewrite !token_hex_run.
  cbn [fst]. fold (next_bytes 5 w) (next_bytes 5 w'). split.
  - intros H. apply hexlify_inj, Ok_inj. exact H.
  - intros ->. reflexivity.
Qed.

(** X2: [random_hex_line] returns 128 lowercase hexadecimal digits, the
    rendering of the next 64 bytes of the random source; it advances the
    source by 64 bytes and touches neither the files nor the output. *)
Theorem random_hex_line_spec (w : World) :
  exists line,
    random_hex_line w = (Ok line, set_consumed (consumed w + 64)%nat w) /\
    line = hexlify (next_bytes 64 w) /\
    length line = 128%nat /\ forallb is_lower_hex line = true.
Proof.
  eexists. split; [unfold random_hex_line; apply token_hex_run|].
  split; [reflexivity|]. split.
  - rewrite hexlify_length, length_fmap, length_seq. reflexivity.
  - apply hexlify_lower.
Qed.

(** ** The document as a function of the key and of the random bytes *)

(** Line [i] before the key is embedded: the rendering of the [i]-th block
    of 64 random bytes drawn from [w] on. *)
Definition filler_line (w : World) (i : nat) : list N :=
  hexlify (entropy w <$> seq (consumed w + i * (LINE_LENGTH / 2)) (LINE_LENGTH / 2)).

Definition document_line (secret_key : list N) (w : World) (i : nat) : list N :=
  match POSITIONS !! i, secret_key !! i with
  | Some pos, Some c => <[pos := c]> (filler_line w i)
  | _, _ => filler_line w i
  end.

Definition document (secret_key : list N) (w : World) : list N :=
  str_join [LF] (document_line secret_key w <$> seq 0 NUM_LINES) ++ [LF].

Lemma embed_step_exact (secret_key : list N) (lines : list (list N)) (i : nat)
    (w : World) (pos : nat) (c : N) :
  POSITIONS !! i = Some pos -> secret_key !! i = Some c ->
  embed_step secret_key lines i w
  = (Ok (lines ++ [<[pos := c]> (hexlify (next_bytes (LINE_LENGTH / 2) w))]),
     set_consumed (consumed w + LINE_LENGTH / 2)%nat w).
Proof.
  intros Hpos Hc.
  unfold embed_step, random_hex_line, bind. rewrite token_hex_run.
  unfold list_getitem, str_getitem. rewrite Hpos. unfold ret at 1.
  cbn [fs set_consumed]. rewrite Hc. unfold ret. fold (next_bytes (LINE_LENGTH / 2) w).
  rewrite slice_replace; [reflexivity|].
  unfold next_bytes. rewrite hexlify_length, length_fmap, length_seq.
  apply POSITIONS_lt in Hpos. unfold LINE_LENGTH in *. cbn. lia.
Qed.

Lemma embed_loop_exact (secret_key : list N) (w0 : World) (n : nat) :
  forall start acc w,
    entropy w = entropy w0 ->
    consumed w = (consumed w0 + start * (LINE_LENGTH / 2))%nat ->
    (start + n <= length secret_key)%nat -> (start + n <= length POSITIONS)%nat ->
    for_each (seq start n) (embed_step secret_key) acc w
    = (Ok (acc ++ (document_line secret_key w0 <$> seq start n)),
       set_consumed (consumed w + n * (LINE_LENGTH / 2))%nat w).
Proof.
  induction n as [|n IH]; intros start acc w Hent Hcons Hk Hp.
  - cbn [seq for_each fmap list_fmap]. unfold ret. rewrite app_nil_r.
    destruct w. unfold set_consumed. cbn. do 2 f_equal. lia.
  - destruct (lookup_lt_is_Some_2 secret_key start) as [c Hc]; [lia|].
    destruct (lookup_lt_is_Some_2 POSITIONS start) as [pos Hpos]; [lia|].
    cbn [seq for_each]. unfold bind at 1.
    rewrite (embed_step_exact secret_key acc start w pos c Hpos Hc).
    rewrite IH; [|exact Hent|cbn [consumed set_consumed]; lia|lia..].
    rewrite fmap_cons, <- app_assoc. cbn [app].
    unfold document_line at 2. rewrite Hpos, Hc.
    unfold filler_line, next_bytes. rewrite Hent, Hcons.
    unfold set_consumed. cbn. do 2 f_equal. lia.
Qed.

Lemma document_lines_embedded (secret_key : list N) (w : World) :
  length secret_key = NUM_LINES ->
  Forall2 (embedded_line secret_key) (seq 0 NUM_LINES)
    (document_line secret_key w <$> seq 0 NUM_LINES).
Proof.
  intros Hlen. apply Forall2_fmap_r, Forall_Forall2_diag, Forall_forall.
  intros i Hi. apply elem_of_seq in Hi as [_ Hi]. cbn in Hi.
  destruct (lookup_lt_is_Some_2 secret_key i) as [c Hc]; [rewrite Hlen; exact Hi|].
  destruct (lookup_lt_is_Some_2 POSITIONS i) as [pos Hpos]; [exact Hi|].
  unfold compose, document_line. rewrite Hpos, Hc.
  exists (filler_line w i), pos, c. split; [|split; [apply hexlify_lower|auto]].
  unfold filler_line. rewrite hexlify_length, length_fmap, length_seq. reflexivity.
Qed.

Lemma write_file_with_key_exact (secret_key filename : list N) (w : World) :
  length secret_key = NUM_LINES ->
  write_file_with_key secret_key filename w
  = match write_error w filename with
    | Some msg => (Raise (OSError msg), lines_drawn w)
    | None =>
        match first_surrogate (document secret_key w) with
        | Some start =>
            (Raise (UnicodeEncodeError (document secret_key w) start
                      (start + surrogate_prefix (drop start (document secret_key w)))),
             set_fs (<[filename := []]> (fs w)) (lines_drawn w))
        | None =>
            (Ok tt,
             mkWorld (<[filename := document secret_key w]> (fs w)) (write_error w)
               (entropy w) (consumed w + NUM_LINES * (LINE_LENGTH / 2))%nat
               (stdout w ++ [msg_written filename; msg_generated secret_key]))
        end
    end.
Proof.
  intros Hlen.
  unfold write_file_with_key. rewrite Hlen. cbn [Nat.eqb NUM_LINES negb].
  unfold bind at 1.
  rewrite (embed_loop_exact secret_key w NUM_LINES 0 [] w);
    [|reflexivity|lia|rewrite Hlen; reflexivity|reflexivity].
  cbn [app]. fold (document secret_key w). fold (lines_drawn w).
  unfold bind at 1, write_text.
  change (write_error (lines_drawn w)) with (write_error w).
  destruct (write_error w filename) as [msg|]; [reflexivity|].
  destruct (first_surrogate (document secret_key w)) as [start|]; [reflexivity|].
  unfold bind, print, set_fs, set_stdout, lines_drawn, set_consumed.
  cbn [fs write_error entropy consumed stdout]. rewrite <- app_assoc. reflexivity.
Qed.

(** X3: the complete outcome of the embedder on a key of 10 characters.
    It first draws 640 random bytes. If the path cannot be opened for
    writing it raises the [OSError], with no file and no output. Otherwise
    the document is the one whose line [i] is the rendering of the [i]-th
    block of 64 random bytes with [key[i]] stored at [POSITIONS[i]]; if it
    holds a lone surrogate, which is so exactly when the key does,
    [UnicodeEncodeError] is raised, the target is left empty and nothing is
    printed; if not, the target holds the document and two texts are
    printed, the second of which shows the key. *)
Theorem write_file_with_key_effects (secret_key filename : list N) (w : World) :
  length secret_key = 10%nat ->
  (first_surrogate (document secret_key w) = None <->
   forallb (fun c => negb (is_surrogate c)) secret_key = true) /\
  write_file_with_key secret_key filename w
  = match write_error w filename with
    | Some msg =>
        (Raise (OSError msg),
         mkWorld (fs w) (write_error w) (entropy w) (consumed w + 640)%nat (stdout w))
    | None =>
        match first_surrogate (document secret_key w) with
        | Some start =>
            (Raise (UnicodeEncodeError (document secret_key w) start
                      (start + surrogate_prefix (drop start (document secret_key w)))),
             mkWorld (<[filename := []]> (fs w)) (write_error w) (entropy w)
               (consumed w + 640)%nat (stdout w))
        | None =>
            (Ok tt,
             mkWorld (<[filename := document secret_key w]> (fs w)) (write_error w)
               (entropy w) (consumed w + 640)%nat
               (stdout w ++ [msg_written filename;
                             pystr "[OK] Generated secret key: " ++ secret_key ++ [LF]]))
        end
    end.
Proof.
  intros Hlen. split.
  - apply embedded_text_surrogate; [exact Hlen|].
    apply document_lines_embedded. exact Hlen.
  - rewrite (write_file_with_key_exact secret_key filename w Hlen).
    destruct (write_error w filename); [reflexivity|].
    destruct (first_surrogate (document secret_key w)); reflexivity.
Qed.

Lemma write_file_with_key_effects_example :
  length example_key = 10%nat /\
  write_file_with_key example_key DEFAULT_FILENAME example_world
  = (Ok tt,
     mkWorld (<[DEFAULT_FILENAME := document example_key example_world]> (fs example_world))
       (write_error example_world) (entropy example_world)
       (consumed example_world + 640)%nat
       (stdout example_world
          ++ [msg_written DEFAULT_FILENAME;
              pystr "[OK] Generated secret key: " ++ example_key ++ [LF]])).
Proof.
  split; [reflexivity|].
  exact (proj2 (write_file_with_key_effects example_key DEFAULT_FILENAME example_world
                  eq_refl)).
Defined.

(** ** The generate command *)

(** The key that [generate_secret_key] draws in [w], and the world after. *)
Definition drawn_key (w : World) : list N := hexlify (next_bytes 5 w).
Definition key_drawn (w : World) : World := set_consumed (consumed w + 5)%nat w.

Lemma drawn_key_facts (w : World) :
  generate_secret_key w = (Ok (drawn_key w), key_drawn w) /\
  length (drawn_key w) = NUM_LINES /\
  forallb (fun c => negb (is_linebreak c)) (drawn_key w) = true /\
  forallb (fun c => negb (is_surrogate c)) (drawn_key w) = true.
Proof.
  split; [reflexivity|]. split.
  { unfold drawn_key, next_bytes. rewrite hexlify_length, length_fmap, length_seq.
    reflexivity. }
  pose proof (hexlify_lower (next_bytes 5 w)) as Hhex. rewrite forallb_forall in Hhex.
  split; apply forallb_forall; intros c Hc;
    apply Hhex, lower_hex_hexdigit in Hc.
  - rewrite (hexdigit_not_linebreak c Hc). reflexivity.
  - rewrite (hexdigit_not_surrogate c Hc). reflexivity.
Qed.

Lemma cmd_generate_write (args : Namespace) (w : World) :
  cmd_generate args w = write_file_with_key (drawn_key w) (args_file args) (key_drawn w).
Proof. reflexivity. Qed.

Lemma cmd_generate_run (args : Namespace) (w : World) :
  write_error w (args_file args) = None ->
  exists w1,
    cmd_generate args w = (Ok tt, w1) /\
    stdout w1 = stdout w ++ [msg_written (args_file args); msg_generated (drawn_key w)] /\
    extract_key_from_file (args_file args) w1 = (Ok (drawn_key w), w1).
Proof.
  intros Hwr. destruct (drawn_key_facts w) as (_ & Hlen & Hnb & Henc).
  destruct (write_file_with_key_run (drawn_key w) (args_file args) (key_drawn w)
              Hlen Henc Hwr) as (lines & _ & Hrun).
  eexists. split; [rewrite cmd_generate_write; exact Hrun|].
  split; [reflexivity|]. eapply embedded_extract; eassumption.
Qed.

(** X4: the outcome of [cmd_generate]. It draws a key, the rendering of the
    next five random bytes, and embeds it; it raises exactly when the path
    cannot be opened for writing, and then the [OSError] of [write_text],
    with no file and no output: never the key-length error or an encoding
    error. Otherwise it returns normally, prints the file name and then the
    key, and leaves a world in which extraction from the target file
    returns exactly the key it drew and printed. *)
Theorem cmd_generate_outcome (args : Namespace) (w : World) :
  fst (generate_secret_key w) = Ok (drawn_key w) /\
  match write_error w (args_file args) with
  | Some msg =>
      cmd_generate args w
      = (Raise (OSError msg),
         mkWorld (fs w) (write_error w) (entropy w) (consumed w + 645)%nat (stdout w))
  | None =>
      exists w1,
        cmd_generate args w = (Ok tt, w1) /\
        printed (cmd_generate args) w
        = [msg_written (args_file args); msg_generated (drawn_key w)] /\
        extract_key_from_file (args_file args) w1 = (Ok (drawn_key w), w1)
  end.
Proof.
  split; [reflexivity|].
  destruct (write_error w (args_file args)) as [msg|] eqn:Hwr.
  - destruct (drawn_key_facts w) as (_ & Hlen & _).
    rewrite cmd_generate_write, (write_file_with_key_exact _ _ _ Hlen).
    change (write_error (key_drawn w)) with (write_error w). rewrite Hwr.
    unfold lines_drawn, key_drawn, set_consumed. cbn. do 2 f_equal. lia.
  - destruct (cmd_generate_run args w Hwr) as (w1 & Hgen & Hout & He).
    exists w1. split; [exact Hgen|]. split; [|exact He].
    unfold printed. rewrite Hgen. cbn [snd]. rewrite Hout.
    apply drop_app_length.
Qed.

(** X5: generate, then validate. When the path can be opened for writing,
    [cmd_generate] succeeds, and validating the same file afterwards reports
    a match with the key that was drawn and printed, a mismatch with any
    other non-empty key, and extraction-only completion without a key. *)
Theorem generate_then_validate (args : Namespace) (w : World) :
  write_error w (args_file args) = None ->
  exists key w1,
    fst (generate_secret_key w) = Ok key /\
    cmd_generate args w = (Ok tt, w1) /\
    last (printed (cmd_generate args) w) = Some (msg_generated key) /\
    reports msg_match (mkArgs (args_file args) (Some key)) w1 /\
    (forall k, k <> [] -> k <> key ->
               reports msg_mismatch (mkArgs (args_file args) (Some k)) w1) /\
    reports msg_no_key (mkArgs (args_file args) None) w1.
Proof.
  intros Hwr. destruct (drawn_key_facts w) as (_ & Hlen & _).
  destruct (cmd_generate_run args w Hwr) as (w1 & Hgen & Hout & He).
  exists (drawn_key w), w1. split; [reflexivity|]. split; [exact Hgen|].
  split.
  { unfold printed. rewrite Hgen. cbn [snd]. rewrite Hout, drop_app_length.
    reflexivity. }
  unfold reports. split; [|split].
  - rewrite (printed_validate_extracted
               (mkArgs (args_file args) (Some (drawn_key w))) w1 w1 _ He).
    cbn [last args_key]. unfold verdict.
    destruct (drawn_key w) as [|c key]; [discriminate Hlen|]. cbn [truthy].
    rewrite bool_decide_eq_true_2 by reflexivity. reflexivity.
  - intros k Hk Hne.
    rewrite (printed_validate_extracted (mkArgs (args_file args) (Some k)) w1 w1 _ He).
    cbn [last args_key]. unfold verdict.
    destruct k as [|c k]; [congruence|]. cbn [truthy].
    rewrite bool_decide_eq_false_2 by congruence. reflexivity.
  - rewrite (printed_validate_extracted (mkArgs (args_file args) None) w1 w1 _ He).
    reflexivity.
Qed.

Lemma generate_then_validate_example :
  exists key w1,
    fst (generate_secret_key example_world) = Ok key /\
    cmd_generate (mkArgs DEFAULT_FILENAME None) example_world = (Ok tt, w1) /\
    last (printed (cmd_generate (mkArgs DEFAULT_FILENAME None)) example_world)
    = Some (msg_generated key) /\
    reports msg_match (mkArgs DEFAULT_FILENAME (Some key)) w1 /\
    (forall k, k <> [] -> k <> key ->
               reports msg_mismatch (mkArgs DEFAULT_FILENAME (Some k)) w1) /\
    reports msg_no_key (mkArgs DEFAULT_FILENAME None) w1.
Proof.
  exact (generate_then_validate (mkArgs DEFAULT_FILENAME None) example_world eq_refl).
Defined.

(** ** What extraction depends on *)

Lemma extract_step_pure (acc : list (list N)) (item : nat * list N) :
  exists r, forall w, extract_step acc item w = (r, w).
Proof.
  destruct item as [i line]. unfold extract_step.
  destruct (negb (length line =? LINE_LENGTH)%nat).
  { exists (Raise (ValueError (msg_line_length i (length line)))). reflexivity. }
  unfold bind, list_getitem, str_getitem.
  destruct (POSITIONS !! i) as [pos|].
  - unfold ret at 1. cbv beta iota. destruct (line !! pos) as [c|].
    + exists (Ok (acc ++ [[c]])). reflexivity.
    + exists (Raise (IndexError (pystr "string index out of range"))). reflexivity.
  - exists (Raise (IndexError (pystr "list index out of range"))). reflexivity.
Qed.

Lemma extract_loop_pure (content : list (list N)) :
  forall start acc,
    exists r, forall w, for_each (enumerate_from start content) extract_step acc w = (r, w).
Proof.
  induction content as [|line rest IH]; intros start acc.
  - eexists. reflexivity.
  - destruct (extract_step_pure acc (start, line)) as [[acc'|e] Hstep].
    + destruct (IH (S start) acc') as [r Hr]. exists r. intros w.
      cbn [enumerate_from for_each]. unfold bind. rewrite Hstep. apply Hr.
    + exists (Raise e). intros w.
      cbn [enumerate_from for_each]. unfold bind. rewrite Hstep. reflexivity.
Qed.

(** The outcome of an extraction is a function of the text of the named
    file alone. *)
Lemma extract_local (filename : list N) (w w' : World) :
  fs w !! filename = fs w' !! filename ->
  fst (extract_key_from_file filename w) = fst (extract_key_from_file filename w').
Proof.
  intros Hfs. destruct (fs w !! filename) as [text|] eqn:Hw; symmetry in Hfs.
  - rewrite (extract_present filename w text Hw), (extract_present filename w' text Hfs).
    destruct (negb (length (splitlines text) =? NUM_LINES)%nat); [reflexivity|].
    destruct (extract_loop_pure (splitlines text) 0 []) as [[chars|e] Hr];
      unfold bind, enumerate; rewrite !Hr; reflexivity.
  - rewrite (extract_absent filename w Hw), (extract_absent filename w' Hfs). reflexivity.
Qed.

Lemma extract_pair (filename : list N) (w : World) :
  extract_key_from_file filename w = (fst (extract_key_from_file filename w), w).
Proof.
  rewrite <- (extract_world filename w) at 3. apply surjective_pairing.
Qed.

Lemma printed_validate_error (args : Namespace) (w : World) (e : exn) :
  fst (extract_key_from_file (args_file args) w) = Raise e ->
  printed (cmd_validate args) w = [msg_error e].
Proof.
  intros He. pose proof (extract_pair (args_file args) w) as Hext. rewrite He in Hext.
  unfold printed. rewrite (cmd_validate_error _ _ _ _ Hext). cbn.
  apply drop_app_length.
Qed.

(** X6: embedding twice into the same path overwrites. After a first key
    and then a second one were embedded, the file holds exactly the second
    document (nothing of the first is kept) and extraction returns the
    second key. *)
Theorem write_twice (k1 k2 filename : list N) (w : World) :
  length k1 = 10%nat -> length k2 = 10%nat ->
  forallb (fun c => negb (is_surrogate c)) k1 = true ->
  forallb (fun c => negb (is_surrogate c)) k2 = true ->
  forallb (fun c => negb (is_linebreak c)) k2 = true ->
  write_error w filename = None ->
  exists w1 w2,
    write_file_with_key k1 filename w = (Ok tt, w1) /\
    write_file_with_key k2 filename w1 = (Ok tt, w2) /\
    fs w2 !! filename = Some (document k2 w1) /\
    extract_key_from_file filename w2 = (Ok k2, w2).
Proof.
  intros Hl1 Hl2 He1 He2 Hb2 Hwr.
  destruct (write_file_with_key_run k1 filename w Hl1 He1 Hwr) as (lines & _ & Hw1).
  eexists. eexists. split; [exact Hw1|].
  match type of Hw1 with _ = (_, ?w1) => set (w1' := w1) end.
  assert (Hw2 : write_file_with_key k2 filename w1'
                = (Ok tt,
                   mkWorld (<[filename := document k2 w1']> (fs w1')) (write_error w1')
                     (entropy w1') (consumed w1' + NUM_LINES * (LINE_LENGTH / 2))%nat
                     (stdout w1' ++ [msg_written filename; msg_generated k2]))).
  { rewrite (write_file_with_key_exact k2 filename w1' Hl2).
    change (write_error w1' filename) with (write_error w filename). rewrite Hwr.
    pose proof (proj2 (embedded_text_surrogate k2 _ Hl2
                         (document_lines_embedded k2 w1' Hl2)) He2) as Hs.
    fold (document k2 w1') in Hs. rewrite Hs. reflexivity. }
  split; [exact Hw2|]. split; [cbn [fs]; apply lookup_insert_eq|].
  eapply embedded_extract; eassumption.
Qed.

(** A second key for the examples. *)
Definition other_key : list N := pystr "fedcba9876".
Definition other_filename : list N := pystr "other.hex".

Lemma write_twice_example :
  exists w1 w2,
    write_file_with_key example_key DEFAULT_FILENAME example_world = (Ok tt, w1) /\
    write_file_with_key other_key DEFAULT_FILENAME w1 = (Ok tt, w2) /\
    fs w2 !! DEFAULT_FILENAME = Some (document other_key w1) /\
    extract_key_from_file DEFAULT_FILENAME w2 = (Ok other_key, w2).
Proof.
  apply (write_twice example_key other_key DEFAULT_FILENAME example_world);
    reflexivity.
Defined.

(** X7: what [cmd_validate] prints is a function of the text of the named
    file and of the comparison key alone: not of the random source, of what
    was printed before, or of any other file. *)
Theorem cmd_validate_local (args : Namespace) (w w' : World) :
  fs w !! args_file args = fs w' !! args_file args ->
  printed (cmd_validate args) w = printed (cmd_validate args) w'.
Proof.
  intros Hfs. pose proof (extract_local (args_file args) w w' Hfs) as Heq.
  destruct (fst (extract_key_from_file (args_file args) w)) as [extracted|e] eqn:Hw;
    symmetry in Heq.
  - rewrite (printed_validate_extracted args w w extracted)
      by (rewrite extract_pair, Hw; reflexivity).
    rewrite (printed_validate_extracted args w' w' extracted)
      by (rewrite extract_pair, Heq; reflexivity).
    reflexivity.
  - rewrite (printed_validate_error args w e Hw), (printed_validate_error args w' e Heq).
    reflexivity.
Qed.

(** The world of [example_written] with another random source, other files
    and earlier output. *)
Definition example_busy : World :=
  mkWorld (<[other_filename := pystr "not a document"]> (fs example_written))
    (fun _ => None) (fun _ => Byte.x00) 7 [pystr "earlier output"].

Lemma cmd_validate_local_example :
  printed (cmd_validate (mkArgs DEFAULT_FILENAME (Some example_key))) example_written
  = printed (cmd_validate (mkArgs DEFAULT_FILENAME (Some example_key))) example_busy.
Proof.
  apply (cmd_validate_local (mkArgs DEFAULT_FILENAME (Some example_key))
           example_written example_busy).
  vm_compute. reflexivity.
Defined.


(** ** The line that an extraction error names *)

(** X9: when the file has 10 lines and some line is not 128 characters long,
    the error names the first such line, counted from 1, and its length. *)
Theorem extract_names_first_bad_line (filename : list N) (w : World) (text : list N) :
  fs w !! filename = Some text ->
  length (splitlines text) = 10%nat ->
  forallb (fun l => (length l =? 128)%nat) (splitlines text) = false ->
  exists i line,
    splitlines text !! i = Some line /\ length line <> 128%nat /\
    (forall j l, (j < i)%nat -> splitlines text !! j = Some l -> length l = 128%nat) /\
    extract_key_from_file filename w
    = (Raise (ValueError
         (pystr "Line " ++ str_of_nat (i + 1) ++ pystr " has "
            ++ str_of_nat (length line) ++ pystr " characters; expected 128.")), w).
Proof.
  intros Hfs Hn Hbad.
  assert (Hex : Exists (fun l => length l <> LINE_LENGTH) (splitlines text)).
  { destruct (forallb_false_lookup _ _ Hbad) as (i & l & Hi & Hl).
    apply Exists_exists. exists l. split.
    - eapply list_elem_of_lookup_2; eassumption.
    - apply Nat.eqb_neq. exact Hl. }
  destruct (extract_line_length filename w text Hfs Hn Hex)
    as (i & line & Hi & Hline & Hbefore & Hr).
  exists i, line. split; [exact Hi|]. split; [exact Hline|]. split; [exact Hbefore|].
  exact Hr.
Qed.

(** A line of 128 characters, and a text whose third line is too short. *)
Definition good_line : list N := replicate 128 97.

Definition short_text : list N :=
  concat ((fun l => l ++ [LF])
            <$> ([good_line; good_line; pystr "too short"] ++ replicate 7 good_line)).

Definition short_world : World :=
  mkWorld {[ DEFAULT_FILENAME := short_text ]} (fun _ => None) (fun _ => Byte.x00) 0 [].

Lemma extract_names_first_bad_line_example :
  exists i line,
    splitlines short_text !! i = Some line /\ length line <> 128%nat /\
    (forall j l, (j < i)%nat -> splitlines short_text !! j = Some l -> length l = 128%nat) /\
    extract_key_from_file DEFAULT_FILENAME short_world
    = (Raise (ValueError
         (pystr "Line " ++ str_of_nat (i + 1) ++ pystr " has "
            ++ str_of_nat (length line) ++ pystr " characters; expected 128.")), short_world).
Proof.
  apply (extract_names_first_bad_line DEFAULT_FILENAME short_world short_text);
    reflexivity.
Defined.

(** ** Line terminators that extraction accepts *)

(** The usual line terminators: \n, \r and \r\n. *)
Definition is_newline_seq (t : list N) : Prop :=
  t = [LF] \/ t = [CR] \/ t = [CR; LF].

Lemma splitlines_from_nobreak (l : list N) :
  forall cur,
    forallb (fun c => negb (is_linebreak c)) l = true ->
    cur ++ l <> [] ->
    splitlines_from cur l = [cur ++ l].
Proof.
  induction l as [|c l IH]; intros cur Hl Hne.
  - rewrite app_nil_r in *. destruct cur; [congruence|reflexivity].
  - cbn [forallb] in Hl. apply andb_true_iff in Hl as [Hc Hl].
    apply negb_true_iff in Hc. rewrite splitlines_from_char by exact Hc.
    rewrite IH; [|exact Hl|destruct cur; discriminate].
    rewrite <- app_assoc. reflexivity.
Qed.

Lemma splitlines_from_terminated (l t rest : list N) :
  forall cur,
    forallb (fun c => negb (is_linebreak c)) l = true ->
    is_newline_seq t ->
    match rest with [] => True | c :: _ => is_linebreak c = false end ->
    splitlines_from cur (l ++ t ++ rest) = (cur ++ l) :: splitlines_from [] rest.
Proof.
  induction l as [|c l IH]; intros cur Hl Ht Hrest.
  - rewrite app_nil_r. cbn [app].
    destruct Ht as [-> | [-> | ->]]; cbn [app];
      rewrite splitlines_from_break by reflexivity; f_equal.
    + destruct rest; reflexivity.
    + destruct rest as [|c' rest']; [reflexivity|]. cbn [skip_lf].
      destruct (N.eqb_spec c' LF) as [->|_]; [discriminate Hrest|reflexivity].
  - cbn [forallb] in Hl. apply andb_true_iff in Hl as [Hc Hl].
    apply negb_true_iff in Hc. cbn [app].
    rewrite splitlines_from_char by exact Hc.
    rewrite IH by assumption. rewrite <- app_assoc. reflexivity.
Qed.

Lemma splitlines_joined (t final : list N) (lines : list (list N)) :
  is_newline_seq t -> final = [] \/ final = t -> lines <> [] ->
  Forall (fun l => l <> [] /\ forallb (fun c => negb (is_linebreak c)) l = true) lines ->
  splitlines (str_join t lines ++ final) = lines.
Proof.
  intros Ht Hfinal Hne Hall. unfold splitlines.
  induction Hall as [|l lines [Hl Hb] Hrest IH]; [congruence|].
  destruct lines as [|l' lines].
  - cbn [str_join]. destruct Hfinal as [-> | ->].
    + rewrite app_nil_r. apply splitlines_from_nobreak; assumption.
    + rewrite <- (app_nil_r (l ++ t)), <- app_assoc.
      rewrite splitlines_from_terminated by (assumption || exact I). reflexivity.
  - change (str_join t (l :: l' :: lines)) with (l ++ t ++ str_join t (l' :: lines)).
    rewrite <- !app_assoc.
    rewrite splitlines_from_terminated; [|exact Hb|exact Ht|].
    + rewrite IH by congruence. reflexivity.
    + apply Forall_cons in Hrest as [[Hl' Hb'] _].
      destruct l' as [|c l']; [congruence|].
      cbn [forallb] in Hb'. apply andb_true_iff in Hb' as [Hc _].
      apply negb_true_iff in Hc.
      destruct lines; cbn [str_join app]; exact Hc.
Qed.

(** X10: extraction accepts the usual line terminators. Ten lines of 128
    characters without line boundaries, joined by \n, by \r or by \r\n, with
    or without a terminator after the last line, are read back as these ten
    lines, and the key is taken from them at the fixed positions. *)
Theorem extract_any_terminator (filename : list N) (w : World)
    (lines : list (list N)) (t final : list N) :
  fs w !! filename = Some (str_join t lines ++ final) ->
  length lines = 10%nat ->
  forallb (fun l => (length l =? 128)%nat
                    && forallb (fun c => negb (is_linebreak c)) l) lines = true ->
  is_newline_seq t ->
  final = [] \/ final = t ->
  exists key,
    extract_key_from_file filename w = (Ok key, w) /\
    length key = 10%nat /\
    forall i line pos,
      lines !! i = Some line -> POSITIONS !! i = Some pos -> key !! i = line !! pos.
Proof.
  intros Hfs Hn Hlines Ht Hfinal.
  rewrite forallb_forall in Hlines.
  assert (Hall : forall l, l ∈ lines ->
            length l = LINE_LENGTH /\ forallb (fun c => negb (is_linebreak c)) l = true).
  { intros l Hl. apply list_elem_of_In, Hlines, andb_true_iff in Hl as [Hlen Hb].
    apply Nat.eqb_eq in Hlen. auto. }
  assert (Hsplit : splitlines (str_join t lines ++ final) = lines).
  { apply splitlines_joined; [exact Ht|exact Hfinal|intros ->; discriminate Hn|].
    apply Forall_forall. intros l Hl. destruct (Hall l Hl) as [Hlen Hb].
    split; [intros ->; discriminate Hlen|exact Hb]. }
  destruct (extract_ok filename w _ Hfs) as (key & Hklen & Hkey & Hr).
  - rewrite Hsplit. exact Hn.
  - rewrite Hsplit. apply Forall_forall. intros l Hl. apply (Hall l Hl).
  - exists key. rewrite Hsplit in Hkey. auto.
Qed.

(** The document of [example_key] with \r\n between the lines and nothing
    after the last one. *)
Definition crlf_lines : list (list N) :=
  document_line example_key example_world <$> seq 0 NUM_LINES.

Definition crlf_world : World :=
  mkWorld {[ DEFAULT_FILENAME := str_join [CR; LF] crlf_lines ++ [] ]}
    (fun _ => None) (fun _ => Byte.x00) 0 [].

Lemma extract_any_terminator_example :
  exists key,
    extract_key_from_file DEFAULT_FILENAME crlf_world = (Ok key, crlf_world) /\
    length key = 10%nat /\
    forall i line pos,
      crlf_lines !! i = Some line -> POSITIONS !! i = Some pos -> key !! i = line !! pos.
Proof.
  apply (extract_any_terminator DEFAULT_FILENAME crlf_world crlf_lines [CR; LF] []).
  - reflexivity.
  - reflexivity.
  - vm_compute. reflexivity.
  - right. right. reflexivity.
  - left. reflexivity.
Defined.

(** ** When validation reports a match *)

Lemma extract_ok_length (filename key : list N) (w : World) :
  fst (extract_key_from_file filename w) = Ok key -> length key = NUM_LINES.
Proof.
  intros Hr. destruct (fs w !! filename) as [text|] eqn:Hfs.
  - destruct (decide (length (splitlines text) = NUM_LINES)) as [Hn|Hn].
    + destruct (Forall_Exists_dec (fun l : list N => length l = LINE_LENGTH)
                  (fun l => length l <> LINE_LENGTH)
                  (fun l => decide (length l = LINE_LENGTH)) (splitlines text)) as [Hall|Hex].
      * destruct (extract_ok filename w text Hfs Hn Hall) as (key' & Hlen & _ & Hr').
        rewrite Hr' in Hr. apply Ok_inj in Hr. subst key'. exact Hlen.
      * destruct (extract_line_length filename w text Hfs Hn Hex)
          as (i & l & _ & _ & _ & Hr').
        rewrite Hr' in Hr. discriminate Hr.
    + rewrite (extract_line_count filename w text Hfs Hn) in Hr. discriminate Hr.
  - rewrite (extract_absent filename w Hfs) in Hr. discriminate Hr.
Qed.

Lemma msg_error_not_match (e : exn) : msg_error e <> msg_match.
Proof.
  intros H. apply (f_equal (take 2)) in H. vm_compute in H. discriminate H.
Qed.

(** X11: validation reports a match exactly when extraction succeeds and
    the comparison key is the extracted key; so a comparison key whose
    length is not 10 is never reported as matching, whatever the file
    holds. *)
Theorem cmd_validate_match_iff (args : Namespace) (w : World) :
  (reports msg_match args w <->
   exists extracted,
     fst (extract_key_from_file (args_file args) w) = Ok extracted /\
     args_key args = Some extracted) /\
  (forall k, args_key args = Some k -> length k <> 10%nat ->
             ~ reports msg_match args w).
Proof.
  assert (Hiff : reports msg_match args w <->
                 exists extracted,
                   fst (extract_key_from_file (args_file args) w) = Ok extracted /\
                   args_key args = Some extracted).
  { unfold reports.
    destruct (fst (extract_key_from_file (args_file args) w)) as [extracted|e] eqn:Hr.
    - rewrite (printed_validate_extracted args w w extracted)
        by (rewrite extract_pair, Hr; reflexivity).
      cbn [last]. unfold verdict. split.
      + intros H. apply (inj Some) in H. exists extracted. split; [reflexivity|].
        destruct (truthy (args_key args));
          [|symmetry in H; destruct (msg_match_no_key H)].
        destruct (decide (args_key args = Some extracted)) as [Hk|Hk]; [exact Hk|].
        rewrite bool_decide_eq_false_2 in H by exact Hk.
        symmetry in H. destruct (msg_match_mismatch H).
      + intros (extracted' & Heq & Hk). apply Ok_inj in Heq. subst extracted'.
        pose proof (extract_ok_length _ _ _ Hr) as Hlen.
        rewrite Hk. destruct extracted as [|c extracted]; [discriminate Hlen|].
        cbn [truthy]. rewrite bool_decide_eq_true_2 by reflexivity. reflexivity.
    - rewrite (printed_validate_error args w e Hr). cbn [last]. split.
      + intros H. apply (inj Some) in H. destruct (msg_error_not_match e H).
      + intros (extracted & Heq & _). discriminate Heq. }
  split; [exact Hiff|].
  intros k Hk Hlen Hrep. apply Hiff in Hrep as (extracted & Hr & Hk').
  apply extract_ok_length in Hr. rewrite Hk in Hk'. injection Hk' as ->.
  exact (Hlen Hr).
Qed.
